(** * search-github-users.py: the GitHub user searcher

    A shallow embedding of [UserSearcher]: the query string built by
    [__init__], the page arithmetic of [_get_pages], and the paging loop of
    [search], together with the small part of pandas the loop relies on
    ([json_normalize], column get/set, [drop], [iloc], [concat]).

    Python integers are unbounded, so they are [Z]; [//] and [%] with a
    positive divisor are [Z.div] and [Z.modulo].  Exceptions are values of
    [exn], and a computation that may raise returns [exn + A]. *)

From Stdlib Require Import ZArith List String Ascii Bool Lia.
From Stdlib Require Import Decimal DecimalString.
Import ListNotations.

Local Open Scope string_scope.
Local Open Scope Z_scope.

(** ** Exceptions *)

Inductive exn : Type :=
| ValueError (msg : string)
| KeyError (key : string)
| RequestException (msg : string)
| JSONDecodeError (msg : string).

Definition result (A : Type) : Type := (exn + A)%type.

Definition raise {A : Type} (e : exn) : result A := inl e.

Definition bind_result {A B : Type} (r : result A) (k : A -> result B)
  : result B :=
  match r with
  | inl e => inl e
  | inr a => k a
  end.

(** ** Python values used by the constructor *)

(** [str(n)] / [f'{n}'] for an [int]: decimal digits, a leading minus sign
    for negatives. *)
Definition str_int (n : Z) : string :=
  NilZero.string_of_int (Z.to_int n).

(** Truth value of an [int]: [0] is falsy. *)
Definition truthy_int (n : Z) : bool := negb (n =? 0).

(** Truth value of a [str]: [''] is falsy. *)
Definition truthy_str (s : string) : bool := negb (String.eqb s "").

Definition is_none {A : Type} (v : option A) : bool :=
  match v with
  | None => true
  | Some _ => false
  end.

(** ** pandas: the fragment of [DataFrame] that [search] uses

    A raw record is one decoded JSON object of the [items] array, taken
    with its keys in document order; a cell that holds no value (NaN) is
    [None].  A frame keeps its column labels and its rows; a row stores the
    cells that hold a value, keyed by column label. *)

Definition value : Type := string.
Definition cell : Type := option value.
Definition record : Type := list (string * value).

Record DataFrame : Type := mkDataFrame {
  columns : list string;
  rows : list record
}.

Definition mem (k : string) (ks : list string) : bool :=
  existsb (String.eqb k) ks.

Fixpoint row_get (k : string) (r : record) : cell :=
  match r with
  | [] => None
  | (k', v) :: r' => if String.eqb k k' then Some v else row_get k r'
  end.

Definition row_del (k : string) (r : record) : record :=
  filter (fun kv => negb (String.eqb k (fst kv))) r.

Fixpoint row_put (k : string) (v : value) (r : record) : record :=
  match r with
  | [] => [(k, v)]
  | (k', v') :: r' =>
      if String.eqb k k' then (k, v) :: r' else (k', v') :: row_put k v r'
  end.

Definition row_set (k : string) (c : cell) (r : record) : record :=
  match c with
  | Some v => row_put k v r
  | None => row_del k r
  end.

(** Column labels of [json_normalize]: every key, in order of first
    appearance. *)
Fixpoint add_labels (seen : list string) (ks : list string) : list string :=
  match ks with
  | [] => seen
  | k :: ks' => add_labels (if mem k seen then seen else seen ++ [k]) ks'
  end.

Definition labels_of (items : list record) : list string :=
  fold_left (fun seen r => add_labels seen (map fst r)) items [].

(** [pd.json_normalize(data)]; an empty list gives the empty frame. *)
Definition json_normalize (items : list record) : DataFrame :=
  match items with
  | [] => mkDataFrame [] []
  | _ => mkDataFrame (labels_of items) items
  end.

(** [df[k]]: the column as a list of cells, [KeyError] when [k] is not a
    column label. *)
Definition getitem (k : string) (df : DataFrame) : result (list cell) :=
  if mem k (columns df) then inr (map (row_get k) (rows df))
  else raise (KeyError k).

(** Row-wise assignment of a series; a row the series does not reach gets
    NaN. *)
Fixpoint assign (k : string) (s : list cell) (rs : list record)
  : list record :=
  match rs with
  | [] => []
  | r :: rs' =>
      match s with
      | [] => row_set k None r :: assign k [] rs'
      | c :: s' => row_set k c r :: assign k s' rs'
      end
  end.

(** [df[k] = s]: replaces the column when it exists, appends it
    otherwise. *)
Definition setitem (k : string) (s : list cell) (df : DataFrame)
  : DataFrame :=
  mkDataFrame
    (if mem k (columns df) then columns df else columns df ++ [k])
    (assign k s (rows df)).

(** [df.drop(labels, axis=1, inplace=True)]: [KeyError] on a label that is
    not a column. *)
Definition drop (labels : list string) (df : DataFrame) : result DataFrame :=
  match find (fun l => negb (mem l (columns df))) labels with
  | Some l => raise (KeyError l)
  | None =>
      inr (mkDataFrame
             (filter (fun c => negb (mem c labels)) (columns df))
             (map (filter (fun kv => negb (mem (fst kv) labels))) (rows df)))
  end.

(** [df.iloc[0:k, :]] for the stops the searcher computes. *)
Definition iloc_rows (k : Z) (df : DataFrame) : DataFrame :=
  mkDataFrame (columns df) (firstn (Z.to_nat k) (rows df)).

(** [pd.concat([a, b], ignore_index=True)]: the union of the columns, the
    rows of [a] followed by the rows of [b]. *)
Definition pd_concat (a b : DataFrame) : DataFrame :=
  mkDataFrame
    (columns a ++ filter (fun c => negb (mem c (columns a))) (columns b))
    (rows a ++ rows b).

(** ** DataFrameFromDict, as [search] uses it

    [with DataFrameFromDict(items) as df:
         df['username'] = df['login']
         df['github_url'] = df['html_url']]
    [__exit__] drops the columns the frame was created with. *)
Definition project (items : list record) : result DataFrame :=
  let df := json_normalize items in
  let original := columns df in
  bind_result (getitem "login" df) (fun login =>
  let df := setitem "username" login df in
  bind_result (getitem "html_url" df) (fun html_url =>
  let df := setitem "github_url" html_url df in
  drop original df)).

(** The class itself.  [__init__] normalises the data and remembers the
    column labels; [__enter__] hands out the frame; the body of the [with]
    statement mutates that frame in place and may raise; [__exit__] drops
    the remembered columns from the frame as the body left it and returns
    [None], so an exception of the body goes on to the caller (unless
    [drop] itself raises, whose exception then takes its place). *)
Module DataFrameFromDict.

Record t : Type := mk {
  self_df : DataFrame;
  self_columns : list string
}.

Definition __init__ (data : list record) : t :=
  let df := json_normalize data in
  mk df (columns df).

Definition __enter__ (self : t) : DataFrame := self_df self.

Definition __exit__ (self : t) (mutated : DataFrame) : result DataFrame :=
  drop (self_columns self) mutated.

(** [with DataFrameFromDict(data) as df: body]: the body is given as what
    it makes of the frame and the exception it ends with, if any. *)
Definition with_block (data : list record)
    (body : DataFrame -> DataFrame * option exn) : result DataFrame :=
  let self := __init__ data in
  let (mutated, raised) := body (__enter__ self) in
  bind_result (__exit__ self mutated) (fun df =>
  match raised with
  | Some e => raise e
  | None => inr df
  end).

End DataFrameFromDict.

(** A [with] body that remaps columns, as the class is meant to be used:
    [df[dst] = df[src]] for each [(dst, src)] in turn; reading a column
    that does not exist raises and ends the body. *)
Fixpoint remap_all (pairs : list (string * string)) (df : DataFrame)
  : DataFrame * option exn :=
  match pairs with
  | [] => (df, None)
  | (dst, src) :: rest =>
      match getitem src df with
      | inl e => (df, Some e)
      | inr column => remap_all rest (setitem dst column df)
      end
  end.

(** The body [search] runs in the [with] block. *)
Definition remap_body (df : DataFrame) : DataFrame * option exn :=
  match getitem "login" df with
  | inl e => (df, Some e)
  | inr login =>
      let df := setitem "username" login df in
      match getitem "html_url" df with
      | inl e => (df, Some e)
      | inr html_url => (setitem "github_url" html_url df, None)
      end
  end.

(** ** urllib.parse, as [search] uses it

    A Python [str] is taken as its UTF-8 bytes, which is what [quote] works
    on.  [quote] keeps the bytes of [_ALWAYS_SAFE] (letters, digits and
    [_.-~]) and of [safe], and writes every other byte as [%XX] with
    upper-case hexadecimal digits. *)

Fixpoint in_string (c : ascii) (s : string) : bool :=
  match s with
  | EmptyString => false
  | String c' s' => Ascii.eqb c c' || in_string c s'
  end.

Definition always_safe (c : ascii) : bool :=
  let n := N_of_ascii c in
  ((65 <=? n) && (n <=? 90) || (97 <=? n) && (n <=? 122)
   || (48 <=? n) && (n <=? 57)
   || (n =? 95) || (n =? 46) || (n =? 45) || (n =? 126))%N.

(** One digit of ['%{:02X}'.format(b)]. *)
Definition hex_digit (d : N) : ascii :=
  if (d <? 10)%N then ascii_of_N (48 + d) else ascii_of_N (55 + d).

Definition percent_encode (c : ascii) : string :=
  let n := N_of_ascii c in
  String "%" (String (hex_digit (n / 16)) (String (hex_digit (n mod 16)) "")).

Fixpoint quote (safe : string) (s : string) : string :=
  match s with
  | EmptyString => EmptyString
  | String c s' =>
      (if always_safe c || in_string c safe then String c EmptyString
       else percent_encode c) ++ quote safe s'
  end.

(** [s.replace(' ', '+')] *)
Definition space_to_plus (c : ascii) : ascii :=
  if Ascii.eqb c " " then "+"%char else c.

Fixpoint replace_spaces (s : string) : string :=
  match s with
  | EmptyString => EmptyString
  | String c s' => String (space_to_plus c) (replace_spaces s')
  end.

Definition quote_plus (safe : string) (s : string) : string :=
  if in_string " " s then replace_spaces (quote (safe ++ " ") s)
  else quote safe s.

(** [urlencode(query, safe=safe)] for a dictionary whose keys and values
    have been turned into strings, in insertion order. *)
Definition urlencode (query : list (string * string)) (safe : string)
  : string :=
  String.concat "&"
    (map (fun kv => quote_plus safe (fst kv) ++ "=" ++ quote_plus safe (snd kv))
         query).

(** ** UserSearcher *)

Module UserSearcher.

Record t : Type := mkUserSearcher {
  _search_query : string
}.

(** [if v: query.append(f'<field>:>=<v>')] for an [Optional[int]]: [None]
    and [0] are falsy. *)
Definition append_int (field : string) (v : option Z) (query : list string)
  : list string :=
  match v with
  | Some n => if truthy_int n then query ++ [field ++ ":>=" ++ str_int n]
              else query
  | None => query
  end.

(** [if language: query.append(f'language:<language>')]: [None] and ['']
    are falsy. *)
Definition append_str (field : string) (v : option string)
    (query : list string) : list string :=
  match v with
  | Some s => if truthy_str s then query ++ [field ++ ":" ++ s] else query
  | None => query
  end.

Definition build_query (min_followers min_repos : option Z)
    (language : option string) : list string :=
  let query := [] in
  let query := append_int "followers" min_followers query in
  let query := append_int "repos" min_repos query in
  let query := append_str "language" language query in
  query.

Definition __init__ (min_followers min_repos : option Z)
    (language : option string) : result t :=
  if is_none min_followers && is_none min_repos && is_none language
  then raise (ValueError "Must specify at least one search parameter.")
  else inr (mkUserSearcher
              (String.concat "+"
                 (build_query min_followers min_repos language))).

(** [(num_results // max_results) + (num_results % max_results > 0)] *)
Definition _get_pages (num_results max_results : Z) : Z :=
  num_results / max_results
  + (if num_results mod max_results >? 0 then 1 else 0).


(** *** The transport

    [requests.get(url, headers, params)] followed by
    [json.loads(resp.text)].  The request is the [payload] dictionary; the
    answer is an exception or the decoded body, of which [search] reads the
    ['items'] entry only ([None] when the body has no such key).  The
    network is a state [W] that every call may change. *)

Record payload : Type := mkPayload {
  q : string;
  page : Z;
  per_page : Z;
  type : string
}.

Definition body : Type := option (list record).

Record exchange : Type := mkExchange {
  sent : payload;
  received : result body
}.

Definition max_results : Z := 100.

(** [num_results % max_results or max_results] *)
Definition final_res (num_results : Z) : Z :=
  if truthy_int (num_results mod max_results)
  then num_results mod max_results
  else max_results.

(** [range(n)] *)
Definition range (n : Z) : list Z := map Z.of_nat (seq 0 (Z.to_nat n)).

(** The placeholder frame [search] starts from. *)
Definition placeholder : DataFrame :=
  mkDataFrame ["username"; "github_url"] [].

Definition make_payload (self : t) (num_results i : Z) : payload :=
  mkPayload (_search_query self) (i + 1) (Z.min num_results max_results)
            "user".

(** [records['items']] *)
Definition get_items (records : body) : result (list record) :=
  match records with
  | Some items => inr items
  | None => raise (KeyError "items")
  end.

Section Transport.

Variable W : Type.
Variable fetch : payload -> W -> result body * W.

(** State threaded through a search: the network, and the exchanges made
    so far, oldest first. *)
Record state : Type := mkState {
  world : W;
  log : list exchange
}.

Definition M (A : Type) : Type := state -> result A * state.

Definition ret {A : Type} (a : A) : M A := fun st => (inr a, st).

Definition bind {A B : Type} (m : M A) (k : A -> M B) : M B :=
  fun st =>
    match m st with
    | (inl e, st') => (inl e, st')
    | (inr a, st') => k a st'
    end.

Definition lift {A : Type} (r : result A) : M A := fun st => (r, st).

(** One call of the transport, recorded in the log whatever comes back;
    an exception of the transport is raised here. *)
Definition request (p : payload) : M body :=
  fun st =>
    let (resp, w') := fetch p (world st) in
    (resp, mkState w' (log st ++ [mkExchange p resp])).

Notation "x <- m ;; k" := (bind m (fun x => k))
  (at level 61, m at next level, right associativity).

(** The body of the [for] loop. *)
Definition iteration (self : t) (num_results num_pages : Z)
    (search_results : DataFrame) (i : Z) : M DataFrame :=
  records <- request (make_payload self num_results i) ;;
  items <- lift (get_items records) ;;
  df <- lift (project items) ;;
  let df := if i + 1 =? num_pages
            then iloc_rows (final_res num_results) df
            else df in
  ret (pd_concat search_results df).

Fixpoint for_each (step : DataFrame -> Z -> M DataFrame) (l : list Z)
    (search_results : DataFrame) : M DataFrame :=
  match l with
  | [] => ret search_results
  | i :: l' =>
      search_results' <- step search_results i ;;
      for_each step l' search_results'
  end.

Definition search (self : t) (num_results : Z) : M DataFrame :=
  let num_pages := _get_pages num_results max_results in
  for_each (iteration self num_results num_pages) (range num_pages)
           placeholder.

(** A search started on network [w] with an empty log. *)
Definition run_search (self : t) (num_results : Z) (w : W)
  : result DataFrame * state :=
  search self num_results (mkState w []).

End Transport.

Arguments mkState {W} _ _.
Arguments world {W} _.
Arguments log {W} _.

(** *** A paging backend

    The transport a well-behaved search endpoint offers: the matches are a
    fixed ranked list [db], and page [p] of size [s] is its slice
    [(p-1)*s .. p*s). *)
Definition page_of (db : list record) (p s : Z) : list record :=
  firstn (Z.to_nat s) (skipn (Z.to_nat ((p - 1) * s)) db).

Definition paged (db : list record) (p : payload) (w : unit)
  : result body * unit :=
  (inr (Some (page_of db (page p) (per_page p))), w).

End UserSearcher.

Import UserSearcher.

(** * Notions used to state the properties *)

(** One clause for every argument that is given, whatever its value: the
    query the documentation of [__init__] describes. *)
Definition documented_query (min_followers min_repos : option Z)
    (language : option string) : string :=
  String.concat "+"
    (match min_followers with
     | Some n => ["followers:>=" ++ str_int n] | None => [] end
     ++ match min_repos with
        | Some n => ["repos:>=" ++ str_int n] | None => [] end
     ++ match language with
        | Some s => ["language:" ++ s] | None => [] end).

Definition given_int (v : option Z) : Prop :=
  match v with Some n => n <> 0 | None => True end.

Definition given_str (v : option string) : Prop :=
  match v with Some s => s <> "" | None => True end.

(** The row [project] makes of a raw record in a frame created with the
    columns [original]. *)
Definition project_row (original : list string) (r : record) : record :=
  let r1 := row_set "username" (row_get "login" r) r in
  let r2 := row_set "github_url" (row_get "html_url" r1) r1 in
  filter (fun kv => negb (mem (fst kv) original)) r2.

(** The frame [project] returns when both source columns exist. *)
Definition projected (items : list record) : DataFrame :=
  let original := labels_of items in
  mkDataFrame
    (filter (fun c => negb (mem c original))
       (let cs := if mem "username" original then original
                  else (original ++ ["username"])%list in
        if mem "github_url" cs then cs else (cs ++ ["github_url"])%list))
    (map (project_row original) items).

(** The frame an answer decodes to, before any truncation. *)
Definition decode (resp : result body) : result DataFrame :=
  bind_result resp (fun records =>
  bind_result (get_items records) project).

(** What iteration [i] keeps of a page. *)
Definition keep {A : Type} (num_results num_pages i : Z) (l : list A)
  : list A :=
  if i + 1 =? num_pages then firstn (Z.to_nat (final_res num_results)) l
  else l.

Definition truncate (num_results num_pages i : Z) (df : DataFrame)
  : DataFrame :=
  if i + 1 =? num_pages then iloc_rows (final_res num_results) df else df.

(** The frames the loop appends, given the decoded frame of every page. *)
Definition appended (num_results num_pages : Z) (ds : list DataFrame)
  : list DataFrame :=
  map (fun x => truncate num_results num_pages (fst x) (snd x))
      (combine (range num_pages) ds).

(** The raw records behind the rows of a result: for every exchange of the
    log, the items received, cut as the loop cuts the page. *)
Definition items_of (resp : result body) : list record :=
  match resp with
  | inr (Some items) => items
  | _ => []
  end.

Definition fetched_records (num_results num_pages : Z)
    (exs : list exchange) : list record :=
  List.concat (map (fun x => keep num_results num_pages (fst x)
                             (items_of (received (snd x))))
              (combine (range num_pages) exs)).

(** The answer to the request of iteration [i] in state [st], and the
    state after it. *)
Definition answer {W : Type} (fetch : payload -> W -> result body * W)
    (self : t) (n i : Z) (st : state W) : result body :=
  fst (fetch (make_payload self n i) (world st)).

Definition requested {W : Type} (fetch : payload -> W -> result body * W)
    (self : t) (n i : Z) (st : state W) : state W :=
  let p := make_payload self n i in
  mkState (snd (fetch p (world st)))
          (log st ++ [mkExchange p (fst (fetch p (world st)))]).

(** Sample data for the examples: a ranked backend of [k] users, the
    searcher of the script's entry point, and a transport whose request for
    page [bad] fails. *)
Definition sample_user (k : Z) : record :=
  [("login", "user" ++ str_int k);
   ("id", str_int k);
   ("html_url", "https://github.com/user" ++ str_int k)].

Definition sample_db (k : nat) : list record :=
  map (fun i => sample_user (Z.of_nat i)) (seq 0 k).

Definition sample_searcher : t := mkUserSearcher "followers:>=1000".

Definition failing_at (bad : Z) (db : list record) (p : payload) (w : unit)
  : result body * unit :=
  if page p =? bad then (raise (RequestException "connection reset"), w)
  else paged db p w.

(** The frame and the final state of a run, for stating examples. *)
Definition frame_of {W : Type} (r : result DataFrame * state W) : DataFrame :=
  match fst r with
  | inr df => df
  | inl _ => placeholder
  end.

(** A raw record that carries both source fields, as every user record of
    the search endpoint does. *)
Definition has_fields (r : record) : Prop :=
  In "login" (map fst r) /\ In "html_url" (map fst r).

(** A cell of the result comes from a field of the raw record: it is that
    field, or NaN. *)
Definition from_field (c field : cell) : Prop := c = None \/ c = field.

Definition projected_from (row raw : record) : Prop :=
  from_field (row_get "username" row) (row_get "login" raw)
  /\ from_field (row_get "github_url" row) (row_get "html_url" raw)
  /\ forall k, In k (map fst row) -> k = "username" \/ k = "github_url".


(** The two cells [search] keeps of a raw record, when the record's page
    has no column of its own called [username] or [github_url]. *)
Definition result_item (r : record) : record :=
  (match row_get "login" r with
   | Some v => [("username", v)]
   | None => []
   end
   ++ match row_get "html_url" r with
      | Some v => [("github_url", v)]
      | None => []
      end)%list.

(** A raw record with no field called [username] or [github_url]. *)
Definition plain_record (r : record) : Prop :=
  ~ In "username" (map fst r) /\ ~ In "github_url" (map fst r).

(** Some record of the page has a field called [k]: the page's frame has a
    column [k]. *)
Definition page_has_key (k : string) (items : list record) : Prop :=
  exists r, In r items /\ In k (map fst r).

(** Transports for the examples: one that answers every request with a
    body that has no ['items'] entry, and one that answers with records
    that have no ['html_url'] field. *)
Definition no_items (p : payload) (w : unit) : result body * unit :=
  (inr None, w).

Definition no_html_url (p : payload) (w : unit) : result body * unit :=
  (inr (Some [[("login", "octocat")]]), w).

(** [payload_str = urllib.parse.urlencode(payload, safe=':+=')] *)
Definition payload_str (p : payload) : string :=
  urlencode [("q", q p);
             ("page", str_int (page p));
             ("per_page", str_int (per_page p));
             ("type", type p)]
            ":+=".

(** The script's entry point: the searcher for [min_followers=1000] and its
    search for 1000 results (the frame is what gets printed). *)
Definition main {W : Type} (fetch : payload -> W -> result body * W) (w : W)
  : result DataFrame * state W :=
  match __init__ (Some 1000) None None with
  | inl e => (inl e, mkState w [])
  | inr searcher => run_search W fetch searcher 1000 w
  end.

(** Tests on the characters of a string. *)
Fixpoint string_forall (p : ascii -> bool) (s : string) : bool :=
  match s with
  | EmptyString => true
  | String c s' => p c && string_forall p s'
  end.

Fixpoint count_char (c : ascii) (s : string) : nat :=
  match s with
  | EmptyString => 0%nat
  | String c' s' => ((if Ascii.eqb c c' then 1 else 0) + count_char c s')%nat
  end.

(** The characters [payload_str] can put in place of a key or a value. *)
Definition wire_char (c : ascii) : bool :=
  always_safe c || in_string c ":+=%".

(** Reading a quoted string back: [%XX] is the byte [XX], anything else is
    itself. *)
Definition unhex (c : ascii) : N :=
  let n := N_of_ascii c in
  (if n <? 58 then n - 48 else n - 55)%N.

Fixpoint unquote (s : string) : string :=
  match s with
  | EmptyString => EmptyString
  | String c s1 =>
      if Ascii.eqb c "%" then
        match s1 with
        | String h1 (String h2 s3) =>
            String (ascii_of_N (16 * unhex h1 + unhex h2)) (unquote s3)
        | _ => s
        end
      else String c (unquote s1)
  end.





(** * Page arithmetic *)

Lemma get_pages_100 (n : Z) :
  _get_pages n max_results = n / 100 + (if n mod 100 =? 0 then 0 else 1).
Proof.
  unfold _get_pages, max_results.
  pose proof (Z.mod_pos_bound n 100 ltac:(lia)) as Hm.
  destruct (n mod 100 >? 0) eqn:Hgt; destruct (n mod 100 =? 0) eqn:Heq;
    try reflexivity; lia.
Qed.

Lemma final_res_100 (n : Z) :
  final_res n = if n mod 100 =? 0 then 100 else n mod 100.
Proof.
  unfold final_res, truthy_int, max_results.
  destruct (n mod 100 =? 0); reflexivity.
Qed.

Lemma final_res_bounds (n : Z) : 1 <= final_res n <= 100.
Proof.
  rewrite final_res_100.
  pose proof (Z.mod_pos_bound n 100 ltac:(lia)).
  destruct (n mod 100 =? 0) eqn:E; lia.
Qed.

(** The pages before the last are full, the last one holds [final_res]. *)
Lemma pages_final_res (n : Z) :
  n = 100 * (_get_pages n max_results - 1) + final_res n.
Proof.
  rewrite get_pages_100, final_res_100.
  pose proof (Z.div_mod n 100 ltac:(lia)).
  destruct (n mod 100 =? 0) eqn:E; lia.
Qed.

Lemma get_pages_pos (n : Z) : 0 < n -> 1 <= _get_pages n max_results.
Proof.
  intros Hn. pose proof (pages_final_res n). pose proof (final_res_bounds n).
  lia.
Qed.

Lemma get_pages_nonpos (n : Z) : n <= 0 -> _get_pages n max_results <= 0.
Proof.
  intros Hn. pose proof (pages_final_res n). pose proof (final_res_bounds n).
  lia.
Qed.

(** C2: for [num_results > 0] the page count is
    [floor(num_results / 100)], plus one when [num_results mod 100] is not
    zero; for 1, 99, 100, 101, 150, 200, 201 it is 1, 1, 1, 2, 2, 2, 3. *)
Theorem get_pages_spec (n : Z) (Hn : 0 < n) :
  _get_pages n max_results = n / 100 + (if n mod 100 =? 0 then 0 else 1)
  /\ map (fun k => _get_pages k max_results) [1; 99; 100; 101; 150; 200; 201]
     = [1; 1; 1; 2; 2; 2; 3].
Proof.
  split.
  - apply get_pages_100.
  - reflexivity.
Qed.

Lemma get_pages_spec_witness :
  0 < 250
  /\ _get_pages 250 max_results = 250 / 100 + (if 250 mod 100 =? 0 then 0 else 1)
  /\ map (fun k => _get_pages k max_results) [1; 99; 100; 101; 150; 200; 201]
     = [1; 1; 1; 2; 2; 2; 3].
Proof.
  split; [lia | apply (get_pages_spec 250); lia].
Defined.

(** * The constructor *)

(** C7: [__init__] raises its [ValueError] exactly when the three arguments
    are all [None]; with any argument given it returns a searcher. *)
Theorem init_raises_iff_all_absent
    (min_followers min_repos : option Z) (language : option string) :
  (__init__ min_followers min_repos language
   = raise (ValueError "Must specify at least one search parameter.")
   <-> min_followers = None /\ min_repos = None /\ language = None)
  /\ ((exists self, __init__ min_followers min_repos language = inr self)
      <-> ~ (min_followers = None /\ min_repos = None /\ language = None)).
Proof.
  unfold __init__, raise.
  destruct min_followers, min_repos, language; cbn [is_none andb];
    (split; split;
     [ try discriminate; try (intros _; auto)
     | try (intros (? & ? & ?); discriminate); try reflexivity
     | try (intros _ (? & ? & ?); discriminate);
       try (intros (? & ?); discriminate)
     | try (intros _; eexists; reflexivity);
       try (intros H; exfalso; apply H; auto) ]).
Qed.

(** X3: When no given argument is [0] or [''], the query has one clause per
    given argument, in the order followers, repos, language, joined by
    ['+']. *)
Lemma init_query_truthy
    (min_followers min_repos : option Z) (language : option string) :
  given_int min_followers -> given_int min_repos -> given_str language ->
  ~ (min_followers = None /\ min_repos = None /\ language = None) ->
  __init__ min_followers min_repos language
  = inr (mkUserSearcher (documented_query min_followers min_repos language)).
Proof.
  intros Hf Hr Hl Hsome.
  assert (Hnone : is_none min_followers && is_none min_repos
                  && is_none language = false).
  { destruct min_followers, min_repos, language; try reflexivity.
    exfalso; apply Hsome; auto. }
  unfold __init__. rewrite Hnone.
  unfold build_query, documented_query, append_int, append_str,
    truthy_int, truthy_str.
  destruct min_followers as [f|]; [apply Z.eqb_neq in Hf; rewrite Hf|];
    (destruct min_repos as [r|]; [apply Z.eqb_neq in Hr; rewrite Hr|]);
    (destruct language as [l|]; [apply String.eqb_neq in Hl; rewrite Hl|]);
    reflexivity.
Qed.

(** C6, at [min_followers=0]: the argument is given, [__init__] raises
    nothing, and the query is empty where one [followers] clause is due. *)
Theorem init_zero_followers_no_clause :
  __init__ (Some 0) None None = inr (mkUserSearcher "")
  /\ documented_query (Some 0) None None = "followers:>=0".
Proof. split; reflexivity. Qed.

(** The same slip drops an empty [language] and keeps the other clauses. *)
Lemma init_empty_language_no_clause :
  __init__ (Some 1000) None (Some "") = inr (mkUserSearcher "followers:>=1000").
Proof. reflexivity. Qed.

(** * Rows and frames *)

Lemma mem_In (k : string) (ks : list string) : mem k ks = true <-> In k ks.
Proof.
  unfold mem. rewrite existsb_exists. split.
  - intros (x & Hx & E). apply String.eqb_eq in E. now subst.
  - intros H. exists k. split; [assumption | apply String.eqb_refl].
Qed.

Lemma mem_app (k : string) (l1 l2 : list string) :
  mem k (l1 ++ l2) = mem k l1 || mem k l2.
Proof. unfold mem. apply existsb_app. Qed.

Lemma row_get_filter (p : string -> bool) (k : string) (r : record) :
  row_get k (filter (fun kv => p (fst kv)) r)
  = if p k then row_get k r else None.
Proof.
  induction r as [|[k' v] r IH]; cbn [filter row_get fst].
  - now destruct (p k).
  - destruct (p k') eqn:Hk'; cbn [row_get]; destruct (String.eqb k k') eqn:E.
    + apply String.eqb_eq in E. subst. now rewrite Hk'.
    + exact IH.
    + apply String.eqb_eq in E. subst. rewrite IH. now rewrite Hk'.
    + exact IH.
Qed.

Lemma row_get_put (k k' : string) (v : value) (r : record) :
  row_get k' (row_put k v r)
  = if String.eqb k' k then Some v else row_get k' r.
Proof.
  induction r as [|[k0 v0] r IH]; cbn [row_put row_get].
  - reflexivity.
  - destruct (String.eqb k k0) eqn:E0; cbn [row_get].
    + apply String.eqb_eq in E0. subst k0.
      now destruct (String.eqb k' k).
    + destruct (String.eqb k' k0) eqn:E1.
      * apply String.eqb_eq in E1. subst k0.
        rewrite String.eqb_sym, E0. reflexivity.
      * exact IH.
Qed.

Lemma row_get_del (k k' : string) (r : record) :
  row_get k' (row_del k r) = if String.eqb k' k then None else row_get k' r.
Proof.
  unfold row_del.
  rewrite (row_get_filter (fun x => negb (String.eqb k x))).
  rewrite (String.eqb_sym k k'). now destruct (String.eqb k' k).
Qed.

Lemma row_get_set (k k' : string) (c : cell) (r : record) :
  row_get k' (row_set k c r) = if String.eqb k' k then c else row_get k' r.
Proof.
  destruct c as [v|]; cbn [row_set].
  - apply row_get_put.
  - apply row_get_del.
Qed.

Lemma row_put_keys (k k0 : string) (v : value) (r : record) :
  In k (map fst (row_put k0 v r)) -> k = k0 \/ In k (map fst r).
Proof.
  induction r as [|[k1 v1] r IH]; cbn [row_put map fst In].
  - intuition.
  - destruct (String.eqb k0 k1); cbn [map fst In]; intuition.
Qed.

Lemma row_set_keys (k k0 : string) (c : cell) (r : record) :
  In k (map fst (row_set k0 c r)) -> k = k0 \/ In k (map fst r).
Proof.
  destruct c as [v|]; cbn [row_set].
  - apply row_put_keys.
  - unfold row_del. intros H. right.
    apply in_map_iff in H. destruct H as (kv & <- & H).
    apply filter_In in H. apply in_map. tauto.
Qed.

Lemma assign_map (k : string) (f : record -> cell) (rs : list record) :
  assign k (map f rs) rs = map (fun r => row_set k (f r) r) rs.
Proof.
  induction rs as [|r rs IH]; cbn [map assign]; [reflexivity | now rewrite IH].
Qed.

Lemma add_labels_In (k : string) (ks seen : list string) :
  In k (add_labels seen ks) <-> In k seen \/ In k ks.
Proof.
  revert seen. induction ks as [|k0 ks IH]; intros seen; cbn [add_labels In].
  - tauto.
  - rewrite IH. destruct (mem k0 seen) eqn:E.
    + apply mem_In in E. split; [tauto|].
      intros [H|[->|H]]; tauto.
    + rewrite in_app_iff. cbn [In]. split; [intuition | intuition].
Qed.

Lemma labels_from_In (k : string) (items : list record) (seen : list string) :
  In k (fold_left (fun s r => add_labels s (map fst r)) items seen)
  <-> In k seen \/ exists r, In r items /\ In k (map fst r).
Proof.
  revert seen. induction items as [|r items IH]; intros seen; cbn [fold_left].
  - split; [tauto | intros [H|(r & [] & _)]; exact H].
  - rewrite IH, add_labels_In. split.
    + intros [[H|H]|(r' & H1 & H2)]; [tauto | right | right].
      * exists r. cbn [In]. tauto.
      * exists r'. cbn [In]. tauto.
    + intros [H|(r' & [->|H1] & H2)]; [tauto | tauto |].
      right. now exists r'.
Qed.

Lemma labels_of_In (k : string) (items : list record) :
  In k (labels_of items) <-> exists r, In r items /\ In k (map fst r).
Proof.
  unfold labels_of. rewrite labels_from_In. cbn [In]. tauto.
Qed.

(** * The projection of a page *)

Lemma find_none {A : Type} (f : A -> bool) (l : list A) :
  (forall x, In x l -> f x = false) -> find f l = None.
Proof.
  induction l as [|x l IH]; cbn [find]; intros H; [reflexivity|].
  rewrite (H x (or_introl eq_refl)). apply IH. intros y Hy. apply H. now right.
Qed.

Lemma project_nil : project [] = raise (KeyError "login").
Proof. reflexivity. Qed.

Lemma project_cases (items : list record) :
  project items =
  match items with
  | [] => raise (KeyError "login")
  | _ =>
      if mem "login" (labels_of items)
      then if mem "html_url" (labels_of items)
           then inr (projected items)
           else raise (KeyError "html_url")
      else raise (KeyError "login")
  end.
Proof.
  destruct items as [|r0 items0]; [reflexivity|].
  unfold project.
  change (json_normalize (r0 :: items0))
    with (mkDataFrame (labels_of (r0 :: items0)) (r0 :: items0)).
  set (items := r0 :: items0).
  set (L := labels_of items).
  unfold getitem at 1. cbn [columns rows].
  destruct (mem "login" L) eqn:Hlogin; cbn [bind_result raise];
    [|reflexivity].
  unfold getitem, setitem. cbn [columns rows].
  assert (Hhtml : mem "html_url"
                    (if mem "username" L then L else L ++ ["username"])
                  = mem "html_url" L).
  { destruct (mem "username" L); [reflexivity|].
    rewrite mem_app. cbn. now rewrite orb_false_r. }
  rewrite Hhtml.
  destruct (mem "html_url" L) eqn:Hh; cbn [bind_result raise]; [|reflexivity].
  unfold drop. cbn [columns rows].
  rewrite find_none.
  - unfold projected. fold L. f_equal. f_equal.
    rewrite !assign_map, !map_map. reflexivity.
  - intros l Hl. apply negb_false_iff, mem_In.
    assert (In l (if mem "username" L then L else L ++ ["username"])) as H1.
    { destruct (mem "username" L); [assumption | apply in_or_app; now left]. }
    destruct (mem "github_url" _); [assumption | apply in_or_app; now left].
Qed.

Lemma project_inv (items : list record) (d : DataFrame) :
  project items = inr d ->
  d = projected items /\ items <> []
  /\ In "login" (labels_of items) /\ In "html_url" (labels_of items).
Proof.
  rewrite project_cases. destruct items as [|r0 items0]; [discriminate|].
  destruct (mem "login" _) eqn:H1; [|discriminate].
  destruct (mem "html_url" _) eqn:H2; [|discriminate].
  intros [= <-]. apply mem_In in H1, H2. repeat split; try assumption.
  discriminate.
Qed.

Lemma projected_columns (items : list record) :
  incl (columns (projected items)) ["username"; "github_url"].
Proof.
  unfold projected. cbn [columns]. set (L := labels_of items).
  intros c Hc. apply filter_In in Hc. destruct Hc as [Hc Hn].
  apply negb_true_iff in Hn.
  assert (~ In c L) as HnL by (intros H; apply mem_In in H; congruence).
  cbn [In].
  destruct (mem "username" L); destruct (mem "github_url" _);
    repeat (apply in_app_or in Hc; destruct Hc as [Hc|Hc]);
    cbn [In] in *; tauto.
Qed.

Lemma project_row_spec (items : list record) (r : record) :
  In r items -> projected_from (project_row (labels_of items) r) r.
Proof.
  intros Hr. set (L := labels_of items). unfold projected_from, project_row.
  cbv zeta.
  rewrite !(row_get_filter (fun k => negb (mem k L))).
  rewrite !row_get_set. cbn [String.eqb Ascii.eqb Bool.eqb].
  repeat split.
  - unfold from_field. destruct (negb (mem "username" L)); tauto.
  - unfold from_field. destruct (negb (mem "github_url" L)); tauto.
  - intros k Hk. apply in_map_iff in Hk. destruct Hk as ([k' v] & <- & Hk).
    apply filter_In in Hk. destruct Hk as [Hk Hn]. cbn [fst] in *.
    apply negb_true_iff in Hn.
    apply (in_map fst) in Hk. cbn [fst] in Hk.
    apply row_set_keys in Hk. destruct Hk as [->|Hk]; [tauto|].
    apply row_set_keys in Hk. destruct Hk as [->|Hk]; [tauto|].
    exfalso. assert (In k' L) as HL by (apply labels_of_In; now exists r).
    apply mem_In in HL. congruence.
Qed.

Lemma projected_rows (items : list record) :
  Forall2 projected_from (rows (projected items)) items.
Proof.
  unfold projected. cbn [rows].
  assert (H : forall l, incl l items ->
            Forall2 projected_from (map (project_row (labels_of items)) l) l).
  { induction l as [|r l IH]; intros Hl; cbn [map]; constructor.
    - apply project_row_spec. apply Hl. now left.
    - apply IH. intros x Hx. apply Hl. now right. }
  apply H. apply incl_refl.
Qed.

(** * Lists of pages *)

Lemma range_length (n : Z) : List.length (range n) = Z.to_nat n.
Proof. unfold range. now rewrite length_map, length_seq. Qed.

Lemma range_In (n i : Z) : In i (range n) <-> 0 <= i < n.
Proof.
  unfold range. rewrite in_map_iff. split.
  - intros (k & <- & Hk). apply in_seq in Hk. lia.
  - intros Hi. exists (Z.to_nat i). split; [lia | apply in_seq; lia].
Qed.

Lemma range_succ (n : Z) : 0 <= n -> range (n + 1) = (range n ++ [n])%list.
Proof.
  intros Hn. unfold range.
  replace (Z.to_nat (n + 1)) with (Z.to_nat n + 1)%nat by lia.
  rewrite seq_app, map_app. cbn [seq map Nat.add]. now rewrite Z2Nat.id.
Qed.

Lemma range_nonpos (n : Z) : n <= 0 -> range n = [].
Proof.
  intros Hn. unfold range. now replace (Z.to_nat n) with 0%nat by lia.
Qed.

Lemma combine_snoc {A B : Type} (l1 : list A) (l2 : list B) (a : A) (b : B) :
  List.length l1 = List.length l2 ->
  combine (l1 ++ [a]) (l2 ++ [b]) = (combine l1 l2 ++ [(a, b)])%list.
Proof.
  revert l2. induction l1 as [|x l1 IH]; intros [|y l2] Hlen;
    try discriminate; simpl.
  - reflexivity.
  - rewrite IH; [reflexivity | now injection Hlen].
Qed.

Lemma keep_rows (n P i : Z) (d : DataFrame) :
  rows (truncate n P i d) = keep n P i (rows d).
Proof. unfold truncate, keep. now destruct (i + 1 =? P). Qed.

Lemma truncate_columns (n P i : Z) (d : DataFrame) :
  columns (truncate n P i d) = columns d.
Proof. unfold truncate. now destruct (i + 1 =? P). Qed.

Lemma truncate_inner (n P : Z) (l : list Z) (ds : list DataFrame) :
  (forall i, In i l -> i + 1 <> P) ->
  List.length l = List.length ds ->
  map (fun x => truncate n P (fst x) (snd x)) (combine l ds) = ds.
Proof.
  revert ds. induction l as [|i l IH]; intros [|d ds] Hl Hlen;
    try discriminate; cbn [combine map fst snd]; [reflexivity|].
  rewrite IH.
  - unfold truncate. destruct (Z.eqb_spec (i + 1) P) as [E|_];
      [|reflexivity].
    exfalso. apply (Hl i); [now left | exact E].
  - intros j Hj. apply Hl. now right.
  - now injection Hlen.
Qed.

(** Only the last frame is cut. *)
Lemma appended_snoc (n P : Z) (pages : list DataFrame) (lastp : DataFrame) :
  List.length (pages ++ [lastp]) = Z.to_nat P ->
  appended n P (pages ++ [lastp])
  = (pages ++ [iloc_rows (final_res n) lastp])%list.
Proof.
  intros Hlen. rewrite length_app in Hlen. cbn [List.length] in Hlen.
  unfold appended.
  assert (HP : range P = (range (P - 1) ++ [P - 1])%list).
  { rewrite <- range_succ by lia. f_equal. lia. }
  rewrite HP.
  assert (Hl : List.length (range (P - 1)) = List.length pages)
    by (rewrite range_length; lia).
  rewrite combine_snoc by exact Hl.
  rewrite map_app, truncate_inner; try exact Hl.
  - cbn [map fst snd]. unfold truncate.
    now replace (P - 1 + 1 =? P) with true by (symmetry; apply Z.eqb_eq; lia).
  - intros i Hi. apply range_In in Hi. lia.
Qed.

Lemma appended_length (n P : Z) (ds : list DataFrame) :
  List.length ds = Z.to_nat P -> List.length (appended n P ds) = Z.to_nat P.
Proof.
  intros H. unfold appended.
  rewrite length_map, length_combine, range_length. lia.
Qed.

Lemma concat_all_rows (ds : list DataFrame) (acc : DataFrame) :
  rows (fold_left pd_concat ds acc)
  = (rows acc ++ List.concat (map rows ds))%list.
Proof.
  revert acc. induction ds as [|d ds IH]; intros acc;
    cbn [fold_left map List.concat].
  - now rewrite app_nil_r.
  - rewrite IH. cbn [pd_concat rows]. now rewrite app_assoc.
Qed.

Lemma concat_all_columns (ds : list DataFrame) (acc : DataFrame) :
  columns acc = ["username"; "github_url"] ->
  Forall (fun d => incl (columns d) ["username"; "github_url"]) ds ->
  columns (fold_left pd_concat ds acc) = ["username"; "github_url"].
Proof.
  intros Hacc Hds. revert acc Hacc.
  induction Hds as [|d ds Hd _ IH]; intros acc Hacc; cbn [fold_left];
    [exact Hacc|].
  apply IH. cbn [pd_concat columns]. rewrite Hacc.
  replace (filter _ (columns d)) with (@nil string); [reflexivity|].
  symmetry. induction (columns d) as [|c cs IHc]; [reflexivity|].
  cbn [filter].
  assert (In c ["username"; "github_url"]) as Hc by (apply Hd; now left).
  apply mem_In in Hc. rewrite Hc. cbn [negb].
  apply IHc. intros x Hx. apply Hd. now right.
Qed.

Lemma Forall2_firstn {A B : Type} (R : A -> B -> Prop) (k : nat)
    (l1 : list A) (l2 : list B) :
  Forall2 R l1 l2 -> Forall2 R (firstn k l1) (firstn k l2).
Proof.
  intros H. revert k. induction H as [|a b l1 l2 Hab _ IH]; intros [|k];
    cbn [firstn]; constructor; [exact Hab | apply IH].
Qed.

Lemma Forall2_keep {A B : Type} (R : A -> B -> Prop) (n P i : Z)
    (l1 : list A) (l2 : list B) :
  Forall2 R l1 l2 -> Forall2 R (keep n P i l1) (keep n P i l2).
Proof.
  intros H. unfold keep. destruct (i + 1 =? P); [|exact H].
  now apply Forall2_firstn.
Qed.

(** * Decoding an answer *)

Lemma decode_inv (resp : result body) (d : DataFrame) :
  decode resp = inr d ->
  exists items, resp = inr (Some items) /\ project items = inr d.
Proof.
  unfold decode. destruct resp as [e|[items|]]; cbn; try discriminate.
  intros H. now exists items.
Qed.

Lemma decode_rows (resp : result body) (d : DataFrame) :
  decode resp = inr d ->
  Forall2 projected_from (rows d) (items_of resp)
  /\ incl (columns d) ["username"; "github_url"].
Proof.
  intros H. apply decode_inv in H. destruct H as (items & -> & H).
  apply project_inv in H. destruct H as (-> & _).
  cbn [items_of]. split; [apply projected_rows | apply projected_columns].
Qed.

(** The transport's own exception, a body without ['items'] and a page
    that cannot be projected all make the iteration raise. *)
Lemma decode_raises (e : exn) : decode (inl e) = raise e.
Proof. reflexivity. Qed.

Lemma decode_no_items : decode (inr None) = raise (KeyError "items").
Proof. reflexivity. Qed.

Lemma decode_empty_page : decode (inr (Some [])) = raise (KeyError "login").
Proof. reflexivity. Qed.

(** * The loop *)

Section Loop.

Variable W : Type.
Variable fetch : payload -> W -> result body * W.
Variable self : t.
Variables n P : Z.

Lemma iteration_unfold (acc : DataFrame) (i : Z) (st : state W) :
  iteration W fetch self n P acc i st =
  (match decode (answer fetch self n i st) with
   | inl e => inl e
   | inr d => inr (pd_concat acc (truncate n P i d))
   end, requested fetch self n i st).
Proof.
  unfold iteration, bind, request, lift, ret, decode, truncate, requested,
    answer.
  destruct (fetch (make_payload self n i) (world st)) as [resp w'].
  cbn [fst snd]. destruct resp as [e|records]; cbn [bind_result];
    [reflexivity|].
  destruct (get_items records) as [e|items]; cbn [bind_result];
    [reflexivity|].
  destruct (project items) as [e|d]; reflexivity.
Qed.

Lemma for_each_cons (acc : DataFrame) (i : Z) (l : list Z) (st : state W) :
  for_each W (iteration W fetch self n P) (i :: l) acc st =
  match decode (answer fetch self n i st) with
  | inl e => (inl e, requested fetch self n i st)
  | inr d =>
      for_each W (iteration W fetch self n P) l
               (pd_concat acc (truncate n P i d)) (requested fetch self n i st)
  end.
Proof.
  cbn [for_each]. unfold bind at 1. rewrite iteration_unfold.
  now destruct (decode (answer fetch self n i st)).
Qed.

Lemma for_each_app (l1 l2 : list Z) (acc : DataFrame) (st : state W) :
  for_each W (iteration W fetch self n P) (l1 ++ l2) acc st =
  match for_each W (iteration W fetch self n P) l1 acc st with
  | (inl e, st1) => (inl e, st1)
  | (inr acc1, st1) =>
      for_each W (iteration W fetch self n P) l2 acc1 st1
  end.
Proof.
  revert acc st. induction l1 as [|i l1 IH]; intros acc st.
  - reflexivity.
  - change ((i :: l1) ++ l2)%list with (i :: (l1 ++ l2))%list.
    rewrite !for_each_cons.
    destruct (decode (answer fetch self n i st)); [reflexivity | apply IH].
Qed.

(** A loop that returns has made one request per index, in order, every
    answer decoded to a frame, and the result is the frames, cut, appended
    one after the other. *)
Lemma for_each_ok (l : list Z) :
  forall (acc : DataFrame) (st : state W) (df : DataFrame) (st' : state W),
  for_each W (iteration W fetch self n P) l acc st = (inr df, st') ->
  exists exs ds,
    log st' = (log st ++ exs)%list
    /\ map sent exs = map (make_payload self n) l
    /\ Forall2 (fun ex d => decode (received ex) = inr d) exs ds
    /\ df = fold_left pd_concat
              (map (fun x => truncate n P (fst x) (snd x)) (combine l ds))
              acc.
Proof.
  induction l as [|i l IH]; intros acc st df st' H.
  - cbn in H. injection H as <- <-. exists [], [].
    rewrite app_nil_r. repeat split. constructor.
  - rewrite for_each_cons in H.
    destruct (decode (answer fetch self n i st)) as [e|d] eqn:Hd; [discriminate|].
    apply IH in H. destruct H as (exs & ds & Hlog & Hsent & Hdec & Hdf).
    exists (mkExchange (make_payload self n i) (answer fetch self n i st) :: exs),
           (d :: ds).
    repeat split.
    + rewrite Hlog. unfold requested. cbn [log].
      now rewrite <- app_assoc.
    + cbn [map sent]. now rewrite Hsent.
    + constructor; assumption.
    + exact Hdf.
Qed.

(** A loop that raises has stopped at the first answer that does not
    decode: the answers before it decoded, nothing is requested after
    it, and nothing twice. *)
Lemma for_each_raises (l : list Z) :
  forall (acc : DataFrame) (st : state W) (e : exn) (st' : state W),
  for_each W (iteration W fetch self n P) l acc st = (inl e, st') ->
  exists l1 i l2 exs ex ds,
    l = (l1 ++ i :: l2)%list
    /\ log st' = (log st ++ exs ++ [ex])%list
    /\ map sent (exs ++ [ex]) = map (make_payload self n) (l1 ++ [i])
    /\ Forall2 (fun ex d => decode (received ex) = inr d) exs ds
    /\ decode (received ex) = inl e.
Proof.
  induction l as [|i l IH]; intros acc st e st' H.
  - discriminate.
  - rewrite for_each_cons in H.
    destruct (decode (answer fetch self n i st)) as [e'|d] eqn:Hd.
    + injection H as <- <-.
      exists [], i, l, [],
        (mkExchange (make_payload self n i) (answer fetch self n i st)), [].
      repeat split; [constructor | exact Hd].
    + apply IH in H.
      destruct H
        as (l1 & j & l2 & exs & ex & ds & -> & Hlog & Hsent & Hdec & Hex).
      exists (i :: l1), j, l2,
        (mkExchange (make_payload self n i) (answer fetch self n i st)
           :: exs), ex, (d :: ds).
      repeat split.
      * rewrite Hlog. unfold requested. cbn [log].
        now rewrite <- app_assoc.
      * simpl. f_equal. exact Hsent.
      * constructor; assumption.
      * exact Hex.
Qed.

(** Every exchange of the log pairs a request with what the transport
    answered to it. *)
Lemma for_each_log (l : list Z) :
  forall (acc : DataFrame) (st : state W),
  exists exs,
    log (snd (for_each W (iteration W fetch self n P) l acc st))
    = (log st ++ exs)%list
    /\ Forall (fun ex => exists w, received ex = fst (fetch (sent ex) w))
              exs.
Proof.
  induction l as [|i l IH]; intros acc st.
  - exists []. cbn. rewrite app_nil_r. split; constructor.
  - rewrite for_each_cons.
    destruct (decode (answer fetch self n i st)) as [e|d].
    + exists [mkExchange (make_payload self n i)
                         (answer fetch self n i st)].
      split; [reflexivity|]. constructor; [|constructor].
      exists (world st). reflexivity.
    + destruct (IH (pd_concat acc (truncate n P i d))
                   (requested fetch self n i st)) as (exs & Hlog & Hall).
      exists (mkExchange (make_payload self n i)
                         (answer fetch self n i st) :: exs).
      split.
      * rewrite Hlog. unfold requested. cbn [log].
        now rewrite <- app_assoc.
      * constructor; [|exact Hall]. exists (world st). reflexivity.
Qed.

End Loop.

Lemma Forall2_length_eq {A B : Type} (R : A -> B -> Prop)
    (l1 : list A) (l2 : list B) :
  Forall2 R l1 l2 -> List.length l1 = List.length l2.
Proof. induction 1; cbn; congruence. Qed.

(** A search that returns: the requests, the frames, the result. *)
Lemma search_ok_inv (W : Type) (fetch : payload -> W -> result body * W)
    (self : t) (n : Z) (w : W) (df : DataFrame) (st : state W) :
  run_search W fetch self n w = (inr df, st) ->
  let P := _get_pages n max_results in
  map sent (log st) = map (make_payload self n) (range P)
  /\ exists ds,
       Forall2 (fun ex d => decode (received ex) = inr d) (log st) ds
       /\ List.length ds = Z.to_nat P
       /\ df = fold_left pd_concat (appended n P ds) placeholder.
Proof.
  intros H P. unfold run_search, search in H. fold P in H.
  apply for_each_ok in H. destruct H as (exs & ds & Hlog & Hsent & Hdec & Hdf).
  simpl in Hlog. subst exs.
  split; [exact Hsent|]. exists ds. repeat split; try assumption.
  rewrite <- (Forall2_length_eq _ _ _ Hdec), <- range_length.
  rewrite <- (length_map sent), Hsent. apply length_map.
Qed.

Lemma firstn_seq (k a m : nat) : firstn k (seq a m) = seq a (Nat.min k m).
Proof.
  revert a m. induction k as [|k IH]; intros a [|m]; cbn [firstn seq Nat.min];
    try reflexivity.
  now rewrite IH.
Qed.

Lemma range_prefix (m : Z) (l1 l2 : list Z) (i : Z) :
  range m = (l1 ++ i :: l2)%list ->
  (l1 ++ [i])%list = range (Z.of_nat (List.length l1) + 1)
  /\ Z.of_nat (List.length l1) + 1 <= m.
Proof.
  intros H.
  assert (Hlen : (List.length l1 + 1 <= Z.to_nat m)%nat).
  { rewrite <- range_length, H, length_app. cbn [List.length]. lia. }
  split; [|lia].
  assert (Hf : firstn (List.length l1 + 1) (range m) = (l1 ++ [i])%list).
  { rewrite H, firstn_app_2. reflexivity. }
  rewrite <- Hf. unfold range. rewrite firstn_map, firstn_seq.
  do 2 f_equal. lia.
Qed.

(** A search that raises: the log ends with the answer that did not decode,
    the answers before it decoded, and the requests are those of the first
    iterations, one each. *)
Lemma search_raises_inv (W : Type) (fetch : payload -> W -> result body * W)
    (self : t) (n : Z) (w : W) (e : exn) (st : state W) :
  run_search W fetch self n w = (inl e, st) ->
  exists exs ex ds,
    log st = (exs ++ [ex])%list
    /\ Forall2 (fun x d => decode (received x) = inr d) exs ds
    /\ decode (received ex) = inl e
    /\ map sent (log st)
       = map (make_payload self n) (range (Z.of_nat (List.length (log st))))
    /\ Z.of_nat (List.length (log st)) <= _get_pages n max_results.
Proof.
  intros H. unfold run_search, search in H.
  apply for_each_raises in H.
  destruct H as (l1 & i & l2 & exs & ex & ds & Hl & Hlog & Hsent & Hdec & Hex).
  simpl in Hlog. apply range_prefix in Hl. destruct Hl as [Hl Hle].
  assert (Hlen : List.length (exs ++ [ex]) = List.length (l1 ++ [i])).
  { rewrite <- (length_map sent), Hsent. apply length_map. }
  rewrite !length_app in Hlen. cbn [List.length] in Hlen.
  exists exs, ex, ds. rewrite Hlog. repeat split; try assumption.
  - rewrite Hsent, Hl, length_app. cbn [List.length].
    do 3 f_equal. lia.
  - rewrite length_app. cbn [List.length]. lia.
Qed.

(** * The search *)

(** C10 as the code has it: for [num_results <= 0] the page count is zero
    or negative (zero exactly when [-100 < num_results]), the loop body
    never runs, and [search] returns the placeholder frame: no request, no
    exception, no row. *)
Theorem search_nonpositive (W : Type)
    (fetch : payload -> W -> result body * W) (self : t) (n : Z) (w : W)
    (Hn : n <= 0) :
  _get_pages n max_results <= 0
  /\ (_get_pages n max_results = 0 <-> -100 < n)
  /\ run_search W fetch self n w = (inr placeholder, mkState w [])
  /\ rows placeholder = [].
Proof.
  pose proof (get_pages_nonpos n Hn) as Hp.
  pose proof (pages_final_res n) as Hf.
  pose proof (final_res_bounds n) as Hb.
  repeat split; try lia.
  unfold run_search, search. rewrite range_nonpos by exact Hp. reflexivity.
Qed.

Lemma search_nonpositive_witness :
  -100 <= 0
  /\ _get_pages (-100) max_results <= 0
  /\ (_get_pages (-100) max_results = 0 <-> -100 < -100)
  /\ run_search unit (paged []) (mkUserSearcher "followers:>=1") (-100) tt
     = (inr placeholder, mkState tt [])
  /\ rows placeholder = [].
Proof.
  split; [lia|].
  apply (search_nonpositive unit (paged []) (mkUserSearcher "followers:>=1")
           (-100) tt).
  lia.
Defined.

(** C10 as stated fails at [num_results = -100]: the page count is [-1],
    not [0]. *)
Lemma get_pages_minus_100_not_zero :
  -100 <= 0 /\ _get_pages (-100) max_results = -1
  /\ _get_pages (-100) max_results <> 0.
Proof. split; [lia|]. split; [reflexivity | discriminate]. Qed.

Lemma Forall2_In_l {A B : Type} (R : A -> B -> Prop) (l1 : list A)
    (l2 : list B) (x : A) :
  Forall2 R l1 l2 -> In x l1 -> exists y, In y l2 /\ R x y.
Proof.
  induction 1 as [|a b l1 l2 Hab _ IH]; intros Hx; [contradiction|].
  destruct Hx as [->|Hx].
  - exists b. split; [now left | exact Hab].
  - destruct (IH Hx) as (y & Hy & Hxy). exists y. split; [now right|exact Hxy].
Qed.

Lemma rows_iloc (k : Z) (d : DataFrame) :
  rows (iloc_rows k d) = firstn (Z.to_nat k) (rows d).
Proof. reflexivity. Qed.

(** C3: in a search for [num_results > 0] that returns, the frames of all
    pages but the last are appended whole and the last one is cut to
    [num_results mod 100] rows, or to 100 rows when that remainder is zero;
    so for 200 the last page keeps 100 rows. *)
Theorem last_page_truncated (W : Type)
    (fetch : payload -> W -> result body * W) (self : t) (n : Z) (w : W)
    (df : DataFrame) (st : state W)
    (Hn : 0 < n)
    (Hrun : run_search W fetch self n w = (inr df, st)) :
  exists pages lastp,
    Forall2 (fun ex d => decode (received ex) = inr d) (log st)
            (pages ++ [lastp])
    /\ rows df
       = (List.concat (map rows pages)
          ++ firstn (Z.to_nat (if n mod 100 =? 0 then 100 else n mod 100))
                    (rows lastp))%list
    /\ (n = 200 ->
        rows df
        = (List.concat (map rows pages) ++ firstn 100 (rows lastp))%list).
Proof.
  apply search_ok_inv in Hrun. cbv zeta in Hrun.
  destruct Hrun as (_ & ds & Hdec & Hlen & ->).
  pose proof (get_pages_pos n Hn) as HP.
  destruct (exists_last (l := ds)) as (pages & lastp & ->).
  { intros ->. cbn [List.length] in Hlen. lia. }
  exists pages, lastp.
  assert (Hrows : rows (fold_left pd_concat
                    (appended n (_get_pages n max_results) (pages ++ [lastp]))
                    placeholder)
                  = (List.concat (map rows pages)
                     ++ firstn (Z.to_nat (final_res n)) (rows lastp))%list).
  { rewrite appended_snoc by exact Hlen.
    rewrite concat_all_rows, map_app, concat_app. cbn [placeholder rows].
    simpl. now rewrite app_nil_r. }
  split; [exact Hdec|]. split.
  - rewrite Hrows, final_res_100. reflexivity.
  - intros ->. rewrite Hrows. reflexivity.
Qed.

Lemma last_page_truncated_witness :
  let run := run_search unit (paged (sample_db 230)) sample_searcher 200 tt in
  exists pages lastp,
    Forall2 (fun ex d => decode (received ex) = inr d) (log (snd run))
            (pages ++ [lastp])
    /\ rows (frame_of run)
       = (List.concat (map rows pages)
          ++ firstn (Z.to_nat (if 200 mod 100 =? 0 then 100 else 200 mod 100))
                    (rows lastp))%list
    /\ (200 = 200 ->
        rows (frame_of run)
        = (List.concat (map rows pages) ++ firstn 100 (rows lastp))%list).
Proof.
  intros run.
  apply (last_page_truncated unit (paged (sample_db 230)) sample_searcher 200
           tt (frame_of run) (snd run)).
  - lia.
  - vm_compute. reflexivity.
Defined.

(** C4: a search for 250 results that returns has made exactly three
    requests, for pages 1, 2 and 3, each with [per_page] = min(250, 100) =
    100, and its rows are those of the first two pages followed by the first
    50 rows of the third. *)
Theorem search_250_three_pages (W : Type)
    (fetch : payload -> W -> result body * W) (self : t) (w : W)
    (df : DataFrame) (st : state W)
    (Hrun : run_search W fetch self 250 w = (inr df, st)) :
  map sent (log st)
  = [mkPayload (_search_query self) 1 100 "user";
     mkPayload (_search_query self) 2 100 "user";
     mkPayload (_search_query self) 3 100 "user"]
  /\ Z.min 250 max_results = 100
  /\ exists d1 d2 d3,
       Forall2 (fun ex d => decode (received ex) = inr d) (log st)
               [d1; d2; d3]
       /\ rows df = (rows d1 ++ rows d2 ++ firstn 50 (rows d3))%list.
Proof.
  apply search_ok_inv in Hrun. cbv zeta in Hrun.
  change (_get_pages 250 max_results) with 3 in Hrun.
  destruct Hrun as (Hsent & ds & Hdec & Hlen & ->).
  split; [exact Hsent|]. split; [reflexivity|].
  destruct ds as [|d1 [|d2 [|d3 [|d4 ds]]]]; try discriminate.
  exists d1, d2, d3. split; [exact Hdec|].
  rewrite concat_all_rows.
  change (appended 250 3 [d1; d2; d3]) with [d1; d2; iloc_rows 50 d3].
  change (rows d1 ++ rows d2 ++ firstn 50 (rows d3))%list
    with (rows d1 ++ rows d2 ++ rows (iloc_rows 50 d3))%list.
  simpl. now rewrite app_nil_r.
Qed.

Lemma search_250_three_pages_witness :
  let run := run_search unit (paged (sample_db 260)) sample_searcher 250 tt in
  map sent (log (snd run))
  = [mkPayload (_search_query sample_searcher) 1 100 "user";
     mkPayload (_search_query sample_searcher) 2 100 "user";
     mkPayload (_search_query sample_searcher) 3 100 "user"]
  /\ Z.min 250 max_results = 100
  /\ exists d1 d2 d3,
       Forall2 (fun ex d => decode (received ex) = inr d) (log (snd run))
               [d1; d2; d3]
       /\ rows (frame_of run)
          = (rows d1 ++ rows d2 ++ firstn 50 (rows d3))%list.
Proof.
  intros run.
  apply (search_250_three_pages unit (paged (sample_db 260)) sample_searcher
           tt (frame_of run) (snd run)).
  vm_compute. reflexivity.
Defined.

(** * Order of the rows *)




(** * The rows and the raw records *)

Lemma appended_from_records (n P : Z) (exs : list exchange)
    (ds : list DataFrame) :
  Forall2 (fun ex d => decode (received ex) = inr d) exs ds ->
  forall l,
  Forall2 projected_from
    (List.concat
       (map rows (map (fun x => truncate n P (fst x) (snd x)) (combine l ds))))
    (List.concat
       (map (fun x => keep n P (fst x) (items_of (received (snd x))))
            (combine l exs))).
Proof.
  induction 1 as [|ex d exs ds Hd _ IH]; intros [|i l];
    cbn [combine map List.concat fst snd]; try constructor.
  apply Forall2_app; [|apply IH].
  rewrite keep_rows. apply Forall2_keep. exact (proj1 (decode_rows _ _ Hd)).
Qed.

Lemma appended_columns (n P : Z) (exs : list exchange) (ds : list DataFrame) :
  Forall2 (fun ex d => decode (received ex) = inr d) exs ds ->
  forall l,
  Forall (fun d => incl (columns d) ["username"; "github_url"])
         (map (fun x => truncate n P (fst x) (snd x)) (combine l ds)).
Proof.
  induction 1 as [|ex d exs ds Hd _ IH]; intros [|i l];
    cbn [combine map fst snd]; constructor; [|apply IH].
  rewrite truncate_columns. exact (proj2 (decode_rows _ _ Hd)).
Qed.

(** On the sample backend the projection keeps the two values and nothing
    else. *)
Lemma sample_search_3 :
  fst (run_search unit (paged (sample_db 5)) sample_searcher 3 tt)
  = inr (mkDataFrame ["username"; "github_url"]
           [[("username", "user0"); ("github_url", "https://github.com/user0")];
            [("username", "user1"); ("github_url", "https://github.com/user1")];
            [("username", "user2"); ("github_url", "https://github.com/user2")]]).
Proof. vm_compute. reflexivity. Qed.

(** * Failures *)

(** C8: if any exchange of a search is a failure [e] of the transport, the
    search raises that same [e] and returns no frame; the failed exchange is
    the last one of the log, every earlier answer had decoded, and the
    requests made are pages 1, 2, ... in order, each exactly once: nothing
    is retried and nothing is requested after the failure. *)
Theorem transport_failure_propagates (W : Type)
    (fetch : payload -> W -> result body * W) (self : t) (n : Z) (w : W)
    (r : result DataFrame) (st : state W) (ex : exchange) (e : exn)
    (Hrun : run_search W fetch self n w = (r, st))
    (Hex : In ex (log st))
    (Hfail : received ex = raise e) :
  r = raise e
  /\ (exists exs ds,
        log st = (exs ++ [ex])%list
        /\ Forall2 (fun x d => decode (received x) = inr d) exs ds)
  /\ map (fun x => page (sent x)) (log st)
     = map (fun i => i + 1) (range (Z.of_nat (List.length (log st))))
  /\ Z.of_nat (List.length (log st)) <= _get_pages n max_results.
Proof.
  assert (Hdecode : decode (received ex) = inl e) by (now rewrite Hfail).
  destruct r as [e'|df].
  - apply search_raises_inv in Hrun.
    destruct Hrun as (exs & ex' & ds & Hlog & Hdec & Hex' & Hsent & Hle).
    assert (ex = ex') as <-.
    { rewrite Hlog in Hex. apply in_app_or in Hex.
      destruct Hex as [Hin|[<-|[]]]; [|reflexivity].
      destruct (Forall2_In_l _ _ _ _ Hdec Hin) as (d & _ & Hd). congruence. }
    assert (e' = e) as -> by congruence.
    split; [reflexivity|]. split; [now exists exs, ds|]. split; [|exact Hle].
    rewrite <- (map_map sent page), Hsent, map_map. reflexivity.
  - exfalso. apply search_ok_inv in Hrun. cbv zeta in Hrun.
    destruct Hrun as (_ & ds & Hdec & _).
    destruct (Forall2_In_l _ _ _ _ Hdec Hex) as (d & _ & Hd). congruence.
Qed.

Lemma transport_failure_propagates_witness :
  let fetch := failing_at 2 (sample_db 260) in
  let run := run_search unit fetch sample_searcher 250 tt in
  let ex := mkExchange (mkPayload "followers:>=1000" 2 100 "user")
                       (raise (RequestException "connection reset")) in
  fst run = raise (RequestException "connection reset")
  /\ (exists exs ds,
        log (snd run) = (exs ++ [ex])%list
        /\ Forall2 (fun x d => decode (received x) = inr d) exs ds)
  /\ map (fun x => page (sent x)) (log (snd run))
     = map (fun i => i + 1) (range (Z.of_nat (List.length (log (snd run)))))
  /\ Z.of_nat (List.length (log (snd run))) <= _get_pages 250 max_results.
Proof.
  intros fetch run ex.
  apply (transport_failure_propagates unit fetch sample_searcher 250 tt
           (fst run) (snd run) ex (RequestException "connection reset")).
  - vm_compute. reflexivity.
  - vm_compute. right. left. reflexivity.
  - reflexivity.
Defined.

(** X9: A body without ['items'] (what a non-success answer decodes to) aborts
    the search the same way, with the [KeyError] of [records['items']]. *)
Lemma missing_items_aborts (W : Type)
    (fetch : payload -> W -> result body * W) (self : t) (n : Z) (w : W)
    (r : result DataFrame) (st : state W) (ex : exchange) :
  run_search W fetch self n w = (r, st) ->
  In ex (log st) -> received ex = inr None ->
  r = raise (KeyError "items") /\ exists exs, log st = (exs ++ [ex])%list.
Proof.
  intros Hrun Hex Hnone.
  assert (Hdecode : decode (received ex) = inl (KeyError "items"))
    by (now rewrite Hnone).
  destruct r as [e'|df].
  - apply search_raises_inv in Hrun.
    destruct Hrun as (exs & ex' & ds & Hlog & Hdec & Hex' & _).
    assert (ex = ex') as <-.
    { rewrite Hlog in Hex. apply in_app_or in Hex.
      destruct Hex as [Hin|[<-|[]]]; [|reflexivity].
      destruct (Forall2_In_l _ _ _ _ Hdec Hin) as (d & _ & Hd). congruence. }
    split; [unfold raise; congruence | now exists exs].
  - exfalso. apply search_ok_inv in Hrun. cbv zeta in Hrun.
    destruct Hrun as (_ & ds & Hdec & _).
    destruct (Forall2_In_l _ _ _ _ Hdec Hex) as (d & _ & Hd). congruence.
Qed.

(** * The search over a paging backend *)

Lemma firstn_add_skipn {A : Type} (a b : nat) (l : list A) :
  (firstn a l ++ firstn b (skipn a l))%list = firstn (a + b) l.
Proof.
  revert l. induction a as [|a IH]; intros l; [reflexivity|].
  destruct l as [|x l]; simpl.
  - now rewrite firstn_nil.
  - now rewrite IH.
Qed.

Lemma slices_concat (s m : nat) (db : list record) :
  List.concat (map (fun k => firstn s (skipn (k * s) db)) (seq 0 m))
  = firstn (m * s) db.
Proof.
  induction m as [|m IH]; [reflexivity|].
  rewrite seq_S, map_app, concat_app, IH. simpl.
  rewrite app_nil_r, firstn_add_skipn. f_equal. lia.
Qed.

Lemma page_of_slice (db : list record) (k : nat) (s : Z) :
  0 <= s ->
  page_of db (Z.of_nat k + 1) s
  = firstn (Z.to_nat s) (skipn (k * Z.to_nat s) db).
Proof.
  intros Hs. unfold page_of. do 2 f_equal.
  replace (Z.of_nat k + 1 - 1) with (Z.of_nat k) by lia.
  rewrite Z2Nat.inj_mul by lia. now rewrite Nat2Z.id.
Qed.

(** What the log of a search over [paged db] holds. *)
Lemma paged_log (db : list record) (self : t) (n : Z)
    (r : result DataFrame) (st : state unit) :
  run_search unit (paged db) self n tt = (r, st) ->
  Forall (fun ex => received ex
                    = inr (Some (page_of db (page (sent ex))
                                         (per_page (sent ex)))))
         (log st).
Proof.
  intros Hrun. unfold run_search, search in Hrun.
  destruct (for_each_log unit (paged db) self n (_get_pages n max_results)
              (range (_get_pages n max_results)) placeholder (mkState tt []))
    as (exs & Hlog & Hall).
  rewrite Hrun in Hlog. cbn [snd] in Hlog. simpl in Hlog. rewrite Hlog.
  eapply Forall_impl; [|exact Hall].
  intros ex (w' & Hw). exact Hw.
Qed.

Lemma paged_fetched (db : list record) (self : t) (n P : Z) :
  forall (l : list Z) (exs : list exchange),
  map sent exs = map (make_payload self n) l ->
  Forall (fun ex => received ex
                    = inr (Some (page_of db (page (sent ex))
                                         (per_page (sent ex))))) exs ->
  map (fun x => keep n P (fst x) (items_of (received (snd x))))
      (combine l exs)
  = map (fun i => keep n P i (page_of db (i + 1) (Z.min n max_results))) l.
Proof.
  induction l as [|i l IH]; intros [|ex exs] Hsent Hall; try discriminate;
    [reflexivity|].
  cbn [map] in Hsent. injection Hsent as Hs Hsent.
  inversion Hall as [|? ? Hex Hrest]; subst.
  cbn [combine map fst snd]. rewrite (IH exs Hsent Hrest).
  rewrite Hex, Hs. reflexivity.
Qed.

(** The records behind a search over [paged db] are the first
    [num_results] records of [db]. *)
Lemma paged_fetched_records (db : list record) (self : t) (n : Z)
    (r : result DataFrame) (st : state unit) :
  0 < n ->
  run_search unit (paged db) self n tt = (r, st) ->
  map sent (log st)
  = map (make_payload self n) (range (_get_pages n max_results)) ->
  fetched_records n (_get_pages n max_results) (log st)
  = firstn (Z.to_nat n) db.
Proof.
  intros Hn Hrun Hsent. set (P := _get_pages n max_results) in *.
  pose proof (paged_log db self n r st Hrun) as Hall.
  unfold fetched_records. rewrite (paged_fetched db self n P _ _ Hsent Hall).
  pose proof (get_pages_pos n Hn) as HP. fold P in HP.
  pose proof (pages_final_res n) as Hfr. fold P in Hfr.
  pose proof (final_res_bounds n) as Hb.
  set (s := Z.min n max_results).
  assert (Hs : 0 <= s) by (unfold s, max_results; lia).
  assert (Hfs : final_res n <= s /\ (P - 1) * s + final_res n = n).
  { unfold s, max_results. destruct (Z.eq_dec P 1) as [HP1|HP1]; nia. }
  destruct Hfs as [Hfs Htot].
  assert (HrP : range P = (range (P - 1) ++ [P - 1])%list).
  { rewrite <- range_succ by lia. f_equal. lia. }
  rewrite HrP, map_app, concat_app. cbn [map List.concat].
  rewrite app_nil_r.
  assert (Hinner : map (fun i => keep n P i (page_of db (i + 1) s))
                       (range (P - 1))
                   = map (fun k => firstn (Z.to_nat s)
                                     (skipn (k * Z.to_nat s) db))
                         (seq 0 (Z.to_nat (P - 1)))).
  { unfold range. rewrite map_map. apply map_ext_in. intros k Hk.
    apply in_seq in Hk. rewrite page_of_slice by exact Hs.
    unfold keep.
    destruct (Z.eqb_spec (Z.of_nat k + 1) P) as [E|_]; [lia | reflexivity]. }
  rewrite Hinner, slices_concat.
  unfold keep. replace (P - 1 + 1 =? P) with true
    by (symmetry; apply Z.eqb_eq; lia).
  replace (P - 1 + 1) with (Z.of_nat (Z.to_nat (P - 1)) + 1) by lia.
  rewrite page_of_slice by exact Hs.
  rewrite firstn_firstn.
  replace (Nat.min (Z.to_nat (final_res n)) (Z.to_nat s))
    with (Z.to_nat (final_res n)) by lia.
  rewrite firstn_add_skipn. f_equal. nia.
Qed.

(** Whenever a search for [num_results > 0] over a paging backend returns,
    its rows are the projections of the first [num_results] records, so
    there are [min(num_results, total)] of them. *)
Theorem paged_search_returns (db : list record) (self : t) (n : Z)
    (df : DataFrame) (st : state unit) :
  0 < n ->
  run_search unit (paged db) self n tt = (inr df, st) ->
  Forall2 projected_from (rows df) (firstn (Z.to_nat n) db)
  /\ Z.of_nat (List.length (rows df)) = Z.min n (Z.of_nat (List.length db)).
Proof.
  intros Hn Hrun.
  pose proof (search_ok_inv _ _ _ _ _ _ _ Hrun) as Hinv0.
  cbv zeta in Hinv0. destruct Hinv0 as (Hsent & _).
  assert (Hrows : Forall2 projected_from (rows df)
                    (fetched_records n (_get_pages n max_results) (log st))).
  { apply search_ok_inv in Hrun as Hinv. cbv zeta in Hinv.
    destruct Hinv as (_ & ds & Hdec & _ & ->).
    rewrite concat_all_rows. cbn [placeholder rows]. simpl.
    unfold appended, fetched_records. now apply appended_from_records. }
  rewrite (paged_fetched_records db self n _ st Hn Hrun Hsent) in Hrows.
  split; [exact Hrows|].
  rewrite (Forall2_length_eq _ _ _ Hrows), length_firstn. lia.
Qed.

Lemma page_of_nil (p s : Z) : page_of [] p s = [].
Proof. unfold page_of. now rewrite skipn_nil, firstn_nil. Qed.

(** X10: A search for [num_results > 0] whose first page comes back empty
    raises: the empty frame has no ['login'] column. *)
Lemma empty_first_page_raises (W : Type)
    (fetch : payload -> W -> result body * W) (self : t) (n : Z) (w : W) :
  0 < n ->
  fst (fetch (make_payload self n 0) w) = inr (Some []) ->
  fst (run_search W fetch self n w) = raise (KeyError "login").
Proof.
  intros Hn Hempty. unfold run_search, search.
  pose proof (get_pages_pos n Hn) as HP.
  assert (Hr : range (_get_pages n max_results)
               = 0 :: map Z.of_nat (seq 1 (Z.to_nat (_get_pages n max_results) - 1))).
  { unfold range.
    replace (Z.to_nat (_get_pages n max_results))
      with (S (Z.to_nat (_get_pages n max_results) - 1)) at 1 by lia.
    reflexivity. }
  rewrite Hr, for_each_cons. unfold answer. cbn [world].
  rewrite Hempty, decode_empty_page. reflexivity.
Qed.

(** C1, at a backend with no match: the request for page 1 is answered with
    an empty ['items'] list, and [search] raises [KeyError('login')] where a
    frame of min(1, 0) = 0 rows is due. *)
Theorem search_no_match_raises :
  run_search unit (paged []) sample_searcher 1 tt
  = (raise (KeyError "login"),
     mkState tt [mkExchange (mkPayload "followers:>=1000" 1 1 "user")
                            (inr (Some []))])
  /\ Z.min 1 (Z.of_nat (List.length (@nil record))) = 0.
Proof. split; reflexivity. Qed.

(** The same happens on a later page: 50 matches, 250 asked for. *)
Lemma search_short_backend_raises :
  fst (run_search unit (paged (sample_db 50)) sample_searcher 250 tt)
  = raise (KeyError "login")
  /\ List.length (log (snd (run_search unit (paged (sample_db 50))
                              sample_searcher 250 tt))) = 2%nat.
Proof. split; vm_compute; reflexivity. Qed.

Lemma project_with_fields (items : list record) :
  items <> [] -> Forall has_fields items ->
  project items = inr (projected items).
Proof.
  intros Hne Hall. rewrite project_cases.
  destruct items as [|r items]; [congruence|].
  inversion Hall as [|? ? [Hl Hh] _]; subst.
  assert (mem "login" (labels_of (r :: items)) = true) as ->.
  { apply mem_In, labels_of_In. exists r. split; [now left | exact Hl]. }
  assert (mem "html_url" (labels_of (r :: items)) = true) as ->.
  { apply mem_In, labels_of_In. exists r. split; [now left | exact Hh]. }
  reflexivity.
Qed.

Lemma Forall_firstn {A : Type} (Q : A -> Prop) (k : nat) (l : list A) :
  Forall Q l -> Forall Q (firstn k l).
Proof.
  intros H. revert k. induction H as [|x l Hx _ IH]; intros [|k];
    cbn [firstn]; constructor; [exact Hx | apply IH].
Qed.

Lemma Forall_skipn {A : Type} (Q : A -> Prop) (k : nat) (l : list A) :
  Forall Q l -> Forall Q (skipn k l).
Proof.
  intros H. revert k. induction H as [|x l Hx Hl IH]; intros [|k];
    cbn [skipn]; try constructor; try assumption. apply IH.
Qed.

(** X14: Over a paging backend whose records carry both fields, a search for
    [num_results > 0] returns as soon as the last page it asks for is not
    empty, and then it returns min(num_results, total) rows. *)
Theorem paged_search_total (db : list record) (self : t) (n : Z) :
  0 < n ->
  Forall has_fields db ->
  100 * (_get_pages n max_results - 1) < Z.of_nat (List.length db) ->
  exists df st,
    run_search unit (paged db) self n tt = (inr df, st)
    /\ Forall2 projected_from (rows df) (firstn (Z.to_nat n) db)
    /\ Z.of_nat (List.length (rows df)) = Z.min n (Z.of_nat (List.length db)).
Proof.
  intros Hn Hfields Hlast.
  destruct (run_search unit (paged db) self n tt) as [[e|df] st] eqn:Hrun.
  - exfalso.
    pose proof (paged_log db self n _ st Hrun) as Hall.
    apply search_raises_inv in Hrun.
    destruct Hrun as (exs & ex & ds & Hlog & _ & Hex & Hsent & Hle).
    rewrite Hlog in Hall, Hsent, Hle.
    apply Forall_app in Hall. destruct Hall as [_ Hall].
    inversion Hall as [|? ? Hrecv _]; subst.
    rewrite length_app in Hsent, Hle. cbn [List.length] in Hsent, Hle.
    replace (Z.of_nat (List.length exs + 1))
      with (Z.of_nat (List.length exs) + 1) in Hsent by lia.
    rewrite range_succ, !map_app in Hsent by lia.
    apply app_inj_tail in Hsent. destruct Hsent as [_ Hs].
    rewrite Hrecv, Hs in Hex. cbn [make_payload page per_page] in Hex.
    unfold decode in Hex. cbn [bind_result get_items] in Hex.
    set (s := Z.min n max_results) in Hex.
    assert (Hs1 : 1 <= s <= 100) by (unfold s, max_results; lia).
    rewrite page_of_slice in Hex by lia.
    rewrite project_with_fields in Hex; [discriminate | |].
    + intros Hnil. apply (f_equal (@List.length record)) in Hnil.
      rewrite length_firstn, length_skipn in Hnil. cbn [List.length] in Hnil.
      nia.
    + apply Forall_firstn, Forall_skipn, Hfields.
  - exists df, st. split; [reflexivity|].
    now apply (paged_search_returns db self n df st).
Qed.


(** * More on the page count *)

Lemma get_pages_ceiling (n m : Z) :
  0 < m ->
  (_get_pages n m - 1) * m < n <= _get_pages n m * m
  /\ forall k, n <= k * m -> _get_pages n m <= k.
Proof.
  intros Hm. unfold _get_pages.
  pose proof (Z.div_mod n m ltac:(lia)) as Hd.
  pose proof (Z.mod_pos_bound n m Hm) as Hb.
  destruct (n mod m >? 0) eqn:E.
  - assert (0 < n mod m) by lia. split; [nia|]. intros k Hk. nia.
  - assert (n mod m = 0) by lia. split; [nia|]. intros k Hk. nia.
Qed.

(** X1: for a positive page size the page count is the least number of
    pages that hold [num_results]: the pages hold them all, and one page
    fewer, or any smaller count, does not. *)
Theorem get_pages_least (n m : Z) (Hm : 0 < m) :
  (_get_pages n m - 1) * m < n <= _get_pages n m * m
  /\ forall k, n <= k * m -> _get_pages n m <= k.
Proof. exact (get_pages_ceiling n m Hm). Qed.

Lemma get_pages_least_witness :
  (_get_pages 250 100 - 1) * 100 < 250 <= _get_pages 250 100 * 100
  /\ forall k, 250 <= k * 100 -> _get_pages 250 100 <= k.
Proof. apply (get_pages_least 250 100). lia. Defined.

(** X2: asking for more results never takes fewer pages. *)
Theorem get_pages_monotone (n n' m : Z) (Hm : 0 < m) (Hn : n <= n') :
  _get_pages n m <= _get_pages n' m.
Proof.
  destruct (get_pages_ceiling n m Hm) as [_ Hleast].
  destruct (get_pages_ceiling n' m Hm) as [[_ Hup] _].
  apply Hleast. lia.
Qed.

Lemma get_pages_monotone_witness : _get_pages 100 100 <= _get_pages 101 100.
Proof. apply (get_pages_monotone 100 101 100); lia. Defined.

(** * More on the constructor *)

Lemma init_query_truthy_witness :
  __init__ (Some 1000) (Some (-5)) (Some "python")
  = inr (mkUserSearcher
           (documented_query (Some 1000) (Some (-5)) (Some "python"))).
Proof.
  apply (init_query_truthy (Some 1000) (Some (-5)) (Some "python")).
  - simpl. lia.
  - simpl. lia.
  - simpl. discriminate.
  - intros (H & _). discriminate.
Defined.

(** X4: a constructor call that succeeds stores the empty query exactly
    when every argument it was given is [0] or ['']: such a searcher
    exists, and it searches for nothing. *)
Theorem init_empty_query (min_followers min_repos : option Z)
    (language : option string) (self : t)
    (Hinit : __init__ min_followers min_repos language = inr self) :
  _search_query self = ""
  <-> (min_followers = None \/ min_followers = Some 0)
      /\ (min_repos = None \/ min_repos = Some 0)
      /\ (language = None \/ language = Some "").
Proof.
  unfold __init__ in Hinit.
  destruct (is_none min_followers && is_none min_repos && is_none language);
    [discriminate|].
  injection Hinit as <-. cbn [_search_query].
  unfold build_query, append_int, append_str, truthy_int, truthy_str.
  destruct min_followers as [f|]; [destruct (Z.eqb_spec f 0) as [->|Hf]|];
    (destruct min_repos as [r|]; [destruct (Z.eqb_spec r 0) as [->|Hr]|]);
    (destruct language as [l|];
     [destruct (String.eqb_spec l "") as [->|Hl]|]);
    cbn [negb app String.concat];
    (split;
     [ try discriminate; intros _; repeat split; auto
     | intros (Hf' & Hr' & Hl');
       try reflexivity;
       try (destruct Hf' as [Hf'|Hf']; [discriminate | congruence]);
       try (destruct Hr' as [Hr'|Hr']; [discriminate | congruence]);
       try (destruct Hl' as [Hl'|Hl']; [discriminate | congruence]) ]).
Qed.

Lemma init_empty_query_witness :
  _search_query (mkUserSearcher "") = ""
  <-> (Some 0 = None \/ Some 0 = Some 0)
      /\ (@None Z = None \/ @None Z = Some 0)
      /\ (Some "" = None \/ Some "" = Some "").
Proof.
  apply (init_empty_query (Some 0) None (Some "") (mkUserSearcher "")).
  reflexivity.
Defined.

(** * More on the search *)

Lemma range_max (m : Z) : range m = range (Z.max 0 m).
Proof. unfold range. f_equal. f_equal. lia. Qed.

Lemma NoDup_map_inj {A B : Type} (f : A -> B) (l : list A) :
  (forall a b, f a = f b -> a = b) -> NoDup l -> NoDup (map f l).
Proof.
  intros Hinj. induction 1 as [|x l Hx _ IH]; cbn [map]; constructor;
    [|exact IH].
  intros Hin. apply in_map_iff in Hin. destruct Hin as (y & Hy & Hyl).
  apply Hinj in Hy. now subst y.
Qed.

(** Whatever the outcome, the requests made are those of the first [k]
    iterations. *)
Lemma search_requests_prefix (W : Type)
    (fetch : payload -> W -> result body * W) (self : t) (n : Z) (w : W)
    (r : result DataFrame) (st : state W) :
  run_search W fetch self n w = (r, st) ->
  exists k,
    0 <= k <= Z.max 0 (_get_pages n max_results)
    /\ map sent (log st) = map (make_payload self n) (range k)
    /\ (forall df, r = inr df -> k = Z.max 0 (_get_pages n max_results))
    /\ (forall e, r = inl e -> 1 <= k).
Proof.
  intros Hrun. destruct r as [e|df].
  - apply search_raises_inv in Hrun.
    destruct Hrun as (exs & ex & ds & Hlog & _ & _ & Hsent & Hle).
    exists (Z.of_nat (List.length (log st))).
    repeat split; try lia; try exact Hsent; try discriminate.
    intros _ _. rewrite Hlog, length_app. cbn [List.length]. lia.
  - apply search_ok_inv in Hrun. cbv zeta in Hrun.
    destruct Hrun as (Hsent & _).
    exists (Z.max 0 (_get_pages n max_results)).
    repeat split; try lia; try discriminate.
    now rewrite <- range_max.
Qed.

(** X5: whether the search returns or raises, every request it made is
    well formed: it carries the searcher's query and [type=user], asks for
    a page between 1 and the page count, and for min(num_results, 100)
    records per page, a size between 1 and 100. *)
Theorem requests_well_formed (W : Type)
    (fetch : payload -> W -> result body * W) (self : t) (n : Z) (w : W)
    (r : result DataFrame) (st : state W) (ex : exchange)
    (Hrun : run_search W fetch self n w = (r, st))
    (Hex : In ex (log st)) :
  q (sent ex) = _search_query self
  /\ type (sent ex) = "user"
  /\ 1 <= page (sent ex) <= _get_pages n max_results
  /\ per_page (sent ex) = Z.min n 100
  /\ 1 <= per_page (sent ex) <= 100.
Proof.
  apply search_requests_prefix in Hrun.
  destruct Hrun as (k & Hk & Hsent & _).
  apply (in_map sent) in Hex. rewrite Hsent in Hex.
  apply in_map_iff in Hex. destruct Hex as (i & <- & Hi).
  apply range_In in Hi. cbn [make_payload q type page per_page].
  assert (HP : 1 <= _get_pages n max_results) by lia.
  assert (Hn : 0 < n).
  { destruct (Z_lt_le_dec 0 n) as [H|H]; [exact H|].
    pose proof (get_pages_nonpos n H). lia. }
  unfold max_results in *. repeat split; lia.
Qed.

Lemma requests_well_formed_witness :
  let run := run_search unit (paged (sample_db 3)) sample_searcher 250 tt in
  let ex := mkExchange (mkPayload "followers:>=1000" 1 100 "user")
                       (inr (Some (sample_db 3))) in
  q (sent ex) = _search_query sample_searcher
  /\ type (sent ex) = "user"
  /\ 1 <= page (sent ex) <= _get_pages 250 max_results
  /\ per_page (sent ex) = Z.min 250 100
  /\ 1 <= per_page (sent ex) <= 100.
Proof.
  intros run ex.
  apply (requests_well_formed unit (paged (sample_db 3)) sample_searcher 250
           tt (fst run) (snd run) ex).
  - vm_compute. reflexivity.
  - vm_compute. left. reflexivity.
Defined.

(** X6: the requests of a run are for pages 1, 2, ..., k without gap or
    repetition; k is the page count when the search returns, and at least
    1 and at most the page count when it raises. *)
Theorem requests_consecutive (W : Type)
    (fetch : payload -> W -> result body * W) (self : t) (n : Z) (w : W)
    (r : result DataFrame) (st : state W)
    (Hrun : run_search W fetch self n w = (r, st)) :
  let k := Z.of_nat (List.length (log st)) in
  map (fun ex => page (sent ex)) (log st) = map (fun i => i + 1) (range k)
  /\ NoDup (map (fun ex => page (sent ex)) (log st))
  /\ (forall df, r = inr df -> k = Z.max 0 (_get_pages n max_results))
  /\ (forall e, r = inl e -> 1 <= k <= _get_pages n max_results).
Proof.
  intros k. apply search_requests_prefix in Hrun.
  destruct Hrun as (k' & Hk' & Hsent & Hok & Hbad).
  assert (Hkk : k = k').
  { unfold k. rewrite <- (length_map sent), Hsent, length_map, range_length.
    lia. }
  assert (Hpages : map (fun ex => page (sent ex)) (log st)
                   = map (fun i => i + 1) (range k)).
  { rewrite <- (map_map sent page), Hsent, map_map, Hkk. reflexivity. }
  split; [exact Hpages|]. split.
  - rewrite Hpages. unfold range. rewrite map_map.
    apply NoDup_map_inj; [|apply seq_NoDup].
    intros a b Hab. lia.
  - rewrite Hkk. split; [exact Hok|].
    intros e He. specialize (Hbad e He). lia.
Qed.

Lemma requests_consecutive_witness :
  let run := run_search unit (failing_at 3 (sample_db 260)) sample_searcher
               250 tt in
  let k := Z.of_nat (List.length (log (snd run))) in
  map (fun ex => page (sent ex)) (log (snd run))
  = map (fun i => i + 1) (range k)
  /\ NoDup (map (fun ex => page (sent ex)) (log (snd run)))
  /\ (forall df, fst run = inr df -> k = Z.max 0 (_get_pages 250 max_results))
  /\ (forall e, fst run = inl e -> 1 <= k <= _get_pages 250 max_results).
Proof.
  intros run.
  apply (requests_consecutive unit (failing_at 3 (sample_db 260))
           sample_searcher 250 tt (fst run) (snd run)).
  vm_compute. reflexivity.
Defined.

(** ** What makes a search raise *)

(** X7: an answer makes its iteration raise in two ways only: the frame of
    the page has no ['login'] column ([KeyError('login')], in particular
    for an empty page), or it has one and no ['html_url'] column
    ([KeyError('html_url')]).  Leaving the [with] block never raises. *)
Theorem page_errors (items : list record) (e : exn) :
  decode (inr (Some items)) = raise e
  <-> (~ page_has_key "login" items /\ e = KeyError "login")
      \/ (page_has_key "login" items /\ ~ page_has_key "html_url" items
          /\ e = KeyError "html_url").
Proof.
  unfold decode, page_has_key, raise. cbn [bind_result get_items].
  rewrite project_cases. destruct items as [|r0 items0].
  - split.
    + intros [= <-]. left. split; [|reflexivity]. intros (r & [] & _).
    + intros [[_ ->]|((r & [] & _) & _)]. reflexivity.
  - rewrite <- !labels_of_In.
    destruct (mem "login" (labels_of (r0 :: items0))) eqn:Hl;
      [destruct (mem "html_url" (labels_of (r0 :: items0))) eqn:Hh|].
    + apply mem_In in Hl, Hh. split; [discriminate|].
      intros [[Hn _]|(_ & Hn & _)]; contradiction.
    + apply mem_In in Hl.
      assert (~ In "html_url" (labels_of (r0 :: items0))) as Hnh
        by (intros H; apply mem_In in H; congruence).
      split.
      * intros [= <-]. right. auto.
      * intros [[Hn _]|(_ & _ & ->)]; [contradiction | reflexivity].
    + assert (~ In "login" (labels_of (r0 :: items0))) as Hnl
        by (intros H; apply mem_In in H; congruence).
      split.
      * intros [= <-]. left. auto.
      * intros [[_ ->]|(Hin & _)]; [reflexivity | contradiction].
Qed.

(** X8: whatever stops an answer from decoding (an exception of the
    transport, a body without ['items'], a page without the two source
    columns), the search raises that exception, returns no frame, and the
    answer is the last thing it received. *)
Theorem undecodable_answer_aborts (W : Type)
    (fetch : payload -> W -> result body * W) (self : t) (n : Z) (w : W)
    (r : result DataFrame) (st : state W) (ex : exchange) (e : exn)
    (Hrun : run_search W fetch self n w = (r, st))
    (Hex : In ex (log st))
    (Hbad : decode (received ex) = raise e) :
  r = raise e
  /\ exists exs ds,
       log st = (exs ++ [ex])%list
       /\ Forall2 (fun x d => decode (received x) = inr d) exs ds.
Proof.
  destruct r as [e'|df].
  - apply search_raises_inv in Hrun.
    destruct Hrun as (exs & ex' & ds & Hlog & Hdec & Hex' & _).
    assert (ex = ex') as <-.
    { rewrite Hlog in Hex. apply in_app_or in Hex.
      destruct Hex as [Hin|[<-|[]]]; [|reflexivity].
      destruct (Forall2_In_l _ _ _ _ Hdec Hin) as (d & _ & Hd).
      unfold raise in Hbad. congruence. }
    split; [unfold raise in *; congruence | now exists exs, ds].
  - exfalso. apply search_ok_inv in Hrun. cbv zeta in Hrun.
    destruct Hrun as (_ & ds & Hdec & _).
    destruct (Forall2_In_l _ _ _ _ Hdec Hex) as (d & _ & Hd).
    unfold raise in Hbad. congruence.
Qed.

Lemma undecodable_answer_aborts_witness :
  let run := run_search unit no_html_url sample_searcher 150 tt in
  let ex := mkExchange (mkPayload "followers:>=1000" 1 100 "user")
                       (inr (Some [[("login", "octocat")]])) in
  fst run = raise (KeyError "html_url")
  /\ exists exs ds,
       log (snd run) = (exs ++ [ex])%list
       /\ Forall2 (fun x d => decode (received x) = inr d) exs ds.
Proof.
  intros run ex.
  apply (undecodable_answer_aborts unit no_html_url sample_searcher 150 tt
           (fst run) (snd run) ex (KeyError "html_url")).
  - vm_compute. reflexivity.
  - vm_compute. left. reflexivity.
  - reflexivity.
Defined.

Lemma missing_items_aborts_witness :
  let run := run_search unit no_items sample_searcher 150 tt in
  let ex := mkExchange (mkPayload "followers:>=1000" 1 100 "user")
                       (inr None) in
  fst run = raise (KeyError "items")
  /\ exists exs, log (snd run) = (exs ++ [ex])%list.
Proof.
  intros run ex.
  apply (missing_items_aborts unit no_items sample_searcher 150 tt
           (fst run) (snd run) ex).
  - vm_compute. reflexivity.
  - vm_compute. left. reflexivity.
  - reflexivity.
Defined.

Lemma empty_first_page_raises_witness :
  fst (run_search unit (paged []) sample_searcher 1000 tt)
  = raise (KeyError "login").
Proof.
  apply (empty_first_page_raises unit (paged []) sample_searcher 1000 tt).
  - lia.
  - reflexivity.
Defined.

Lemma paged_search_total_witness :
  exists df st,
    run_search unit (paged (sample_db 120)) sample_searcher 150 tt
    = (inr df, st)
    /\ Forall2 projected_from (rows df)
         (firstn (Z.to_nat 150) (sample_db 120))
    /\ Z.of_nat (List.length (rows df))
       = Z.min 150 (Z.of_nat (List.length (sample_db 120))).
Proof.
  apply (paged_search_total (sample_db 120) sample_searcher 150).
  - lia.
  - unfold sample_db. apply Forall_forall. intros r Hr.
    apply in_map_iff in Hr. destruct Hr as (i & <- & _).
    split; cbn; auto 6.
  - vm_compute. reflexivity.
Defined.

(** ** How many rows, and which *)

Lemma search_rows_from_records (W : Type)
    (fetch : payload -> W -> result body * W) (self : t) (n : Z) (w : W)
    (df : DataFrame) (st : state W) :
  run_search W fetch self n w = (inr df, st) ->
  Forall2 projected_from (rows df)
    (fetched_records n (_get_pages n max_results) (log st)).
Proof.
  intros Hrun. apply search_ok_inv in Hrun. cbv zeta in Hrun.
  destruct Hrun as (_ & ds & Hdec & _ & ->).
  rewrite concat_all_rows. cbn [placeholder rows]. simpl.
  unfold appended, fetched_records. now apply appended_from_records.
Qed.

Lemma concat_length_bound {A : Type} (b : nat) (ls : list (list A)) :
  Forall (fun l => (List.length l <= b)%nat) ls ->
  (List.length (List.concat ls) <= List.length ls * b)%nat.
Proof.
  induction 1 as [|l ls Hl _ IH]; cbn [List.concat List.length]; [lia|].
  rewrite length_app. lia.
Qed.

Lemma keep_length {A : Type} (n P i : Z) (l : list A) :
  (List.length (keep n P i l) <= List.length l)%nat.
Proof.
  unfold keep. destruct (i + 1 =? P); [|lia].
  rewrite length_firstn. lia.
Qed.

(** The records kept of a log whose pages hold at most [b] records each,
    the last one being cut to [final_res]. *)
Lemma fetched_length_bound (n P : Z) (b : nat) (exs : list exchange) :
  1 <= P ->
  List.length exs = Z.to_nat P ->
  Forall (fun ex => (List.length (items_of (received ex)) <= b)%nat) exs ->
  (List.length (fetched_records n P exs)
   <= (Z.to_nat P - 1) * b + Z.to_nat (final_res n))%nat.
Proof.
  intros HP Hlen Hall.
  destruct (exists_last (l := exs)) as (exs' & exl & ->).
  { intros ->. cbn [List.length] in Hlen. lia. }
  rewrite length_app in Hlen. cbn [List.length] in Hlen.
  apply Forall_app in Hall. destruct Hall as [Hall _].
  unfold fetched_records.
  assert (HrP : range P = (range (P - 1) ++ [P - 1])%list).
  { rewrite <- range_succ by lia. f_equal. lia. }
  rewrite HrP, combine_snoc by (rewrite range_length; lia).
  rewrite map_app, concat_app, length_app. cbn [map List.concat fst snd].
  rewrite app_nil_r.
  assert (Hinner : (List.length
                      (List.concat
                         (map (fun x => keep n P (fst x)
                                          (items_of (received (snd x))))
                              (combine (range (P - 1)) exs')))
                    <= (Z.to_nat P - 1) * b)%nat).
  { etransitivity; [apply (concat_length_bound b)|].
    - apply Forall_forall. intros l Hl. apply in_map_iff in Hl.
      destruct Hl as ([i ex] & <- & Hin). cbn [fst snd].
      apply in_combine_r in Hin.
      etransitivity; [apply keep_length|].
      rewrite Forall_forall in Hall. now apply Hall.
    - rewrite length_map, length_combine, range_length.
      apply Nat.mul_le_mono_r. lia. }
  assert (Hlast : (List.length (keep n P (P - 1) (items_of (received exl)))
                   <= Z.to_nat (final_res n))%nat).
  { unfold keep.
    replace (P - 1 + 1 =? P) with true by (symmetry; apply Z.eqb_eq; lia).
    rewrite length_firstn. lia. }
  lia.
Qed.

(** X11: if every answer held at most the [per_page] records its request
    asked for, a search for [num_results > 0] that returns has at most
    [num_results] rows. *)
Theorem result_size_bounded (W : Type)
    (fetch : payload -> W -> result body * W) (self : t) (n : Z) (w : W)
    (df : DataFrame) (st : state W)
    (Hn : 0 < n)
    (Hrun : run_search W fetch self n w = (inr df, st))
    (Hsize : Forall (fun ex => Z.of_nat (List.length (items_of (received ex)))
                               <= per_page (sent ex)) (log st)) :
  Z.of_nat (List.length (rows df)) <= n.
Proof.
  pose proof (search_rows_from_records _ _ _ _ _ _ _ Hrun) as Hrows.
  apply Forall2_length_eq in Hrows. rewrite Hrows.
  apply search_ok_inv in Hrun. cbv zeta in Hrun.
  destruct Hrun as (Hsent & ds & Hdec & Hlen & _).
  set (P := _get_pages n max_results) in *.
  pose proof (get_pages_pos n Hn) as HP. fold P in HP.
  pose proof (pages_final_res n) as Hfr. fold P in Hfr.
  pose proof (final_res_bounds n) as Hb.
  set (s := Z.min n max_results).
  assert (Hall : Forall (fun ex => (List.length (items_of (received ex))
                                    <= Z.to_nat s)%nat) (log st)).
  { rewrite Forall_forall in *. intros ex Hex. specialize (Hsize ex Hex).
    apply (in_map sent) in Hex. rewrite Hsent in Hex.
    apply in_map_iff in Hex. destruct Hex as (i & Hi & _).
    rewrite <- Hi in Hsize. cbn [make_payload per_page] in Hsize.
    fold s in Hsize. lia. }
  assert (Hlog : List.length (log st) = Z.to_nat P).
  { rewrite (Forall2_length_eq _ _ _ Hdec). exact Hlen. }
  pose proof (fetched_length_bound n P (Z.to_nat s) (log st) HP Hlog Hall)
    as Hbound.
  assert (Hfs : (P - 1) * s + final_res n <= n).
  { unfold s, max_results. destruct (Z.eq_dec P 1) as [HP1|HP1]; nia. }
  assert (Hs : 0 <= s) by (unfold s, max_results; lia).
  assert (Hnat : Z.of_nat ((Z.to_nat P - 1) * Z.to_nat s
                           + Z.to_nat (final_res n))
                 = (P - 1) * s + final_res n).
  { rewrite Nat2Z.inj_add, Nat2Z.inj_mul, Nat2Z.inj_sub by lia.
    rewrite !Z2Nat.id by lia. reflexivity. }
  lia.
Qed.

Lemma result_size_bounded_witness :
  let run := run_search unit (paged (sample_db 400)) sample_searcher 250 tt in
  Z.of_nat (List.length (rows (frame_of run))) <= 250.
Proof.
  intros run.
  apply (result_size_bounded unit (paged (sample_db 400)) sample_searcher 250
           tt (frame_of run) (snd run)).
  - lia.
  - vm_compute. reflexivity.
  - vm_compute. repeat constructor; discriminate.
Defined.

Lemma row_put_absent (k : string) (v : value) (r : record) :
  ~ In k (map fst r) -> row_put k v r = (r ++ [(k, v)])%list.
Proof.
  induction r as [|[k0 v0] r IH]; intros Hk; [reflexivity|].
  cbn [map fst In] in Hk. cbn [row_put].
  destruct (String.eqb_spec k k0) as [->|_]; [tauto|].
  simpl. rewrite IH by tauto. reflexivity.
Qed.

Lemma row_del_absent (k : string) (r : record) :
  ~ In k (map fst r) -> row_del k r = r.
Proof.
  unfold row_del. induction r as [|[k0 v0] r IH]; intros Hk; [reflexivity|].
  cbn [map fst In] in Hk. cbn [filter fst].
  destruct (String.eqb_spec k k0) as [->|_]; [tauto|].
  cbn [negb]. rewrite IH by tauto. reflexivity.
Qed.

Lemma row_set_absent (k : string) (c : cell) (r : record) :
  ~ In k (map fst r) ->
  row_set k c r
  = (r ++ match c with Some v => [(k, v)] | None => [] end)%list.
Proof.
  intros Hk. destruct c as [v|]; cbn [row_set].
  - now apply row_put_absent.
  - rewrite app_nil_r. now apply row_del_absent.
Qed.

Lemma filter_labels_all (L : list string) (r : record) :
  (forall k, In k (map fst r) -> In k L) ->
  filter (fun kv : string * value => negb (mem (fst kv) L)) r = [].
Proof.
  induction r as [|[k v] r IH]; intros Hr; [reflexivity|].
  cbn [filter fst].
  assert (mem k L = true) as -> by (apply mem_In, Hr; now left).
  cbn [negb]. apply IH. intros k' Hk'. apply Hr. now right.
Qed.


(** In a page without [username] and [github_url] fields the projection
    of a record is its [result_item]. *)
Lemma project_row_plain (L : list string) (r : record) :
  (forall k, In k (map fst r) -> In k L) ->
  ~ In "username" L -> ~ In "github_url" L ->
  project_row L r = result_item r.
Proof.
  intros Hr Hu Hg. unfold project_row, result_item. cbv zeta.
  assert (Hur : ~ In "username" (map fst r)) by (intros H; apply Hu, Hr, H).
  assert (Hgr : ~ In "github_url" (map fst r)) by (intros H; apply Hg, Hr, H).
  rewrite row_get_set. cbn [String.eqb Ascii.eqb Bool.eqb].
  rewrite (row_set_absent "username") by exact Hur.
  rewrite (row_set_absent "github_url").
  - rewrite <- app_assoc, filter_app, filter_labels_all by exact Hr.
    simpl.
    assert (mem "username" L = false) as Hmu
      by (destruct (mem "username" L) eqn:E; [apply mem_In in E; tauto
                                             | reflexivity]).
    assert (mem "github_url" L = false) as Hmg
      by (destruct (mem "github_url" L) eqn:E; [apply mem_In in E; tauto
                                               | reflexivity]).
    destruct (row_get "login" r), (row_get "html_url" r); simpl;
      rewrite ?Hmu, ?Hmg; reflexivity.
  - rewrite map_app, in_app_iff. intros [H|H]; [tauto|].
    destruct (row_get "login" r); simpl in H; [|tauto].
    destruct H as [H|[]]. discriminate.
Qed.

Lemma projected_plain (items : list record) :
  Forall plain_record items ->
  projected items
  = mkDataFrame ["username"; "github_url"] (map result_item items).
Proof.
  intros Hplain. unfold projected. set (L := labels_of items).
  assert (Hu : ~ In "username" L).
  { intros H. apply labels_of_In in H. destruct H as (r & Hr & Hk).
    rewrite Forall_forall in Hplain. destruct (Hplain r Hr). tauto. }
  assert (Hg : ~ In "github_url" L).
  { intros H. apply labels_of_In in H. destruct H as (r & Hr & Hk).
    rewrite Forall_forall in Hplain. destruct (Hplain r Hr). tauto. }
  assert (mem "username" L = false) as Hmu
    by (destruct (mem "username" L) eqn:E; [apply mem_In in E; tauto
                                           | reflexivity]).
  assert (mem "github_url" L = false) as Hmg
    by (destruct (mem "github_url" L) eqn:E; [apply mem_In in E; tauto
                                             | reflexivity]).
  f_equal.
  - rewrite Hmu, mem_app, Hmg. cbn [mem existsb orb String.eqb Ascii.eqb
                                      Bool.eqb].
    rewrite <- app_assoc, filter_app.
    replace (filter (fun c => negb (mem c L)) L) with (@nil string).
    + simpl. now rewrite Hmu, Hmg.
    + symmetry. assert (H : forall l, incl l L ->
                          filter (fun c => negb (mem c L)) l = []).
      { induction l as [|c l IH]; intros Hl; [reflexivity|]. cbn [filter].
        assert (mem c L = true) as -> by (apply mem_In, Hl; now left).
        apply IH. intros x Hx. apply Hl. now right. }
      apply H, incl_refl.
  - apply map_ext_in. intros r Hr. apply project_row_plain; try assumption.
    intros k Hk. apply labels_of_In. now exists r.
Qed.

Lemma keep_map {A B : Type} (f : A -> B) (n P i : Z) (l : list A) :
  keep n P i (map f l) = map f (keep n P i l).
Proof. unfold keep. destruct (i + 1 =? P); [apply firstn_map | reflexivity]. Qed.

Lemma appended_exact (n P : Z) (exs : list exchange) (ds : list DataFrame) :
  Forall2 (fun ex d => decode (received ex) = inr d) exs ds ->
  Forall (fun ex => Forall plain_record (items_of (received ex))) exs ->
  forall l,
  List.concat
    (map rows (map (fun x => truncate n P (fst x) (snd x)) (combine l ds)))
  = map result_item
      (List.concat
         (map (fun x => keep n P (fst x) (items_of (received (snd x))))
              (combine l exs))).
Proof.
  induction 1 as [|ex d exs ds Hd _ IH]; intros Hplain [|i l];
    cbn [combine map List.concat fst snd]; try reflexivity.
  inversion Hplain as [|? ? Hex Hrest]; subst.
  rewrite map_app, (IH Hrest l). f_equal.
  rewrite keep_rows. apply decode_inv in Hd.
  destruct Hd as (items & Hresp & Hproj). rewrite Hresp in Hex |- *.
  cbn [items_of] in Hex |- *. apply project_inv in Hproj.
  destruct Hproj as (-> & _). rewrite (projected_plain items Hex).
  cbn [rows]. apply keep_map.
Qed.

Lemma search_rows_exact (W : Type)
    (fetch : payload -> W -> result body * W) (self : t) (n : Z) (w : W)
    (df : DataFrame) (st : state W) :
  run_search W fetch self n w = (inr df, st) ->
  Forall (fun ex => Forall plain_record (items_of (received ex))) (log st) ->
  df = mkDataFrame ["username"; "github_url"]
         (map result_item
            (fetched_records n (_get_pages n max_results) (log st))).
Proof.
  intros Hrun Hplain. apply search_ok_inv in Hrun. cbv zeta in Hrun.
  destruct Hrun as (_ & ds & Hdec & _ & ->).
  set (res := fold_left pd_concat _ placeholder).
  assert (Hc : columns res = ["username"; "github_url"]).
  { apply concat_all_columns; [reflexivity|].
    unfold appended. now apply (appended_columns _ _ (log st)). }
  assert (Hr : rows res
               = map result_item
                   (fetched_records n (_get_pages n max_results) (log st))).
  { unfold res. rewrite concat_all_rows. cbn [placeholder rows]. simpl.
    unfold appended, fetched_records. now apply appended_exact. }
  destruct res as [cs rs]. cbn [columns rows] in Hc, Hr. now subst.
Qed.

(** X12: when no record received has a field of its own called [username] or
    [github_url], the frame a search returns is exactly: the columns
    [username] and [github_url], and one row per record kept, in order,
    holding the record's [login] and [html_url] values under those two
    names. *)
Theorem search_returns_result_items (W : Type)
    (fetch : payload -> W -> result body * W) (self : t) (n : Z) (w : W)
    (df : DataFrame) (st : state W)
    (Hrun : run_search W fetch self n w = (inr df, st))
    (Hplain : Forall (fun ex => Forall plain_record (items_of (received ex)))
                     (log st)) :
  df = mkDataFrame ["username"; "github_url"]
         (map result_item
            (fetched_records n (_get_pages n max_results) (log st))).
Proof. exact (search_rows_exact W fetch self n w df st Hrun Hplain). Qed.

Lemma sample_db_plain (k : nat) : Forall plain_record (sample_db k).
Proof.
  unfold sample_db. apply Forall_forall. intros r Hr.
  apply in_map_iff in Hr. destruct Hr as (i & <- & _).
  split; cbn; intros [H|[H|[H|[]]]]; discriminate.
Qed.

Lemma search_returns_result_items_witness :
  let run := run_search unit (paged (sample_db 5)) sample_searcher 3 tt in
  frame_of run
  = mkDataFrame ["username"; "github_url"]
      (map result_item
         (fetched_records 3 (_get_pages 3 max_results) (log (snd run)))).
Proof.
  intros run.
  apply (search_returns_result_items unit (paged (sample_db 5))
           sample_searcher 3 tt (frame_of run) (snd run)).
  - vm_compute. reflexivity.
  - vm_compute. repeat constructor; intros [H|[H|[H|[]]]]; discriminate.
Defined.

(** X13: over a paging backend whose records have no [username] or
    [github_url] field, a search for [num_results > 0] that returns gives
    exactly the [login] and [html_url] of the first [num_results] records,
    in the backend's order. *)
Theorem paged_search_exact (db : list record) (self : t) (n : Z)
    (df : DataFrame) (st : state unit)
    (Hn : 0 < n)
    (Hplain : Forall plain_record db)
    (Hrun : run_search unit (paged db) self n tt = (inr df, st)) :
  df = mkDataFrame ["username"; "github_url"]
         (map result_item (firstn (Z.to_nat n) db)).
Proof.
  pose proof (search_ok_inv _ _ _ _ _ _ _ Hrun) as Hinv.
  cbv zeta in Hinv. destruct Hinv as (Hsent & _).
  rewrite <- (paged_fetched_records db self n _ st Hn Hrun Hsent).
  apply (search_rows_exact unit (paged db) self n tt df st Hrun).
  pose proof (paged_log db self n _ st Hrun) as Hlog.
  eapply Forall_impl; [|exact Hlog].
  intros ex Hex. rewrite Hex. cbn [items_of]. unfold page_of.
  apply Forall_firstn, Forall_skipn, Hplain.
Qed.

Lemma paged_search_exact_witness :
  let run := run_search unit (paged (sample_db 130)) sample_searcher 120 tt in
  frame_of run
  = mkDataFrame ["username"; "github_url"]
      (map result_item (firstn (Z.to_nat 120) (sample_db 130))).
Proof.
  intros run.
  apply (paged_search_exact (sample_db 130) sample_searcher 120
           (frame_of run) (snd run)).
  - lia.
  - apply sample_db_plain.
  - vm_compute. reflexivity.
Defined.

(** * The context manager *)

Lemma assign_length (k : string) (s : list cell) (rs : list record) :
  List.length (assign k s rs) = List.length rs.
Proof.
  revert s. induction rs as [|r rs IH]; intros s; [reflexivity|].
  destruct s; cbn [assign List.length]; now rewrite IH.
Qed.

Lemma setitem_columns (k : string) (s : list cell) (df : DataFrame) (c : string) :
  In c (columns (setitem k s df)) <-> In c (columns df) \/ c = k.
Proof.
  unfold setitem. cbn [columns]. destruct (mem k (columns df)) eqn:E.
  - apply mem_In in E. split; [tauto | intros [H | ->]; assumption].
  - rewrite in_app_iff. cbn [In]. split; [intros [H|[H|[]]] | intros [H|H]];
      auto.
Qed.

Lemma drop_own_columns (labels : list string) (df : DataFrame) :
  incl labels (columns df) ->
  drop labels df
  = inr (mkDataFrame
           (filter (fun c => negb (mem c labels)) (columns df))
           (map (filter (fun kv => negb (mem (fst kv) labels))) (rows df))).
Proof.
  intros Hincl. unfold drop. rewrite find_none; [reflexivity|].
  intros l Hl. apply negb_false_iff, mem_In, Hincl, Hl.
Qed.

Lemma json_normalize_length (data : list record) :
  List.length (rows (json_normalize data)) = List.length data.
Proof. now destruct data. Qed.

(** X16: reading a column of the frame handed out by [__enter__] raises
    [KeyError] exactly when no input record has a field of that name, in
    particular for empty data; otherwise it gives one cell per record, the
    record's value or NaN. *)
Theorem enter_getitem (data : list record) (k : string) :
  (getitem k (DataFrameFromDict.__enter__ (DataFrameFromDict.__init__ data))
   = raise (KeyError k)
   <-> ~ page_has_key k data)
  /\ (page_has_key k data ->
      getitem k (DataFrameFromDict.__enter__ (DataFrameFromDict.__init__ data))
      = inr (map (row_get k) data)).
Proof.
  unfold DataFrameFromDict.__enter__, DataFrameFromDict.__init__, getitem,
    page_has_key, raise.
  cbn [DataFrameFromDict.self_df].
  destruct data as [|r0 data0].
  - cbn. split; [|intros (r & [] & _)].
    split; [intros _ (r & [] & _) | reflexivity].
  - change (json_normalize (r0 :: data0))
      with (mkDataFrame (labels_of (r0 :: data0)) (r0 :: data0)).
    cbn [columns rows]. rewrite <- labels_of_In.
    destruct (mem k (labels_of (r0 :: data0))) eqn:E.
    + apply mem_In in E. split; [|reflexivity].
      split; [discriminate | contradiction].
    + split.
      * split; [|reflexivity]. intros _ H. apply mem_In in H. congruence.
      * intros H. apply mem_In in H. congruence.
Qed.

(** X17: the projection [search] applies to a page is the [with] statement
    of the class run on the page with the two assignments as body. *)
Theorem project_is_with_block (items : list record) :
  project items = DataFrameFromDict.with_block items remap_body.
Proof.
  unfold DataFrameFromDict.with_block, DataFrameFromDict.__exit__,
    DataFrameFromDict.__enter__, DataFrameFromDict.__init__, remap_body,
    project.
  cbn [DataFrameFromDict.self_df DataFrameFromDict.self_columns].
  set (df0 := json_normalize items).
  destruct (getitem "login" df0) as [e|login] eqn:Hl; cbn [bind_result].
  - rewrite drop_own_columns by apply incl_refl. reflexivity.
  - destruct (getitem "html_url" (setitem "username" login df0))
      as [e|html] eqn:Hh; cbn [bind_result].
    + rewrite drop_own_columns; [reflexivity|].
      intros c Hc. apply setitem_columns. now left.
    + destruct (drop (columns df0) _); reflexivity.
Qed.

(** * The query string of a request *)

Lemma string_forall_app (p : ascii -> bool) (a b : string) :
  string_forall p (a ++ b) = string_forall p a && string_forall p b.
Proof.
  induction a as [|c a IH]; [reflexivity|].
  cbn [append string_forall]. now rewrite IH, andb_assoc.
Qed.

Lemma string_forall_impl (p p' : ascii -> bool) (s : string) :
  (forall c, p c = true -> p' c = true) ->
  string_forall p s = true -> string_forall p' s = true.
Proof.
  intros Himp. induction s as [|c s IH]; [reflexivity|].
  cbn [string_forall]. rewrite !andb_true_iff. intros [Hc Hs].
  split; [now apply Himp | now apply IH].
Qed.

Lemma in_string_app (c : ascii) (a b : string) :
  in_string c (a ++ b) = in_string c a || in_string c b.
Proof.
  induction a as [|c' a IH]; [reflexivity|].
  cbn [append in_string]. now rewrite IH, orb_assoc.
Qed.

Lemma in_string_forall (p : ascii -> bool) (c : ascii) (s : string) :
  string_forall p s = true -> p c = false -> in_string c s = false.
Proof.
  intros Hs Hc. induction s as [|c' s IH]; [reflexivity|].
  cbn [string_forall] in Hs. apply andb_true_iff in Hs. destruct Hs as [H1 H2].
  cbn [in_string]. rewrite (IH H2), orb_false_r.
  destruct (Ascii.eqb_spec c c') as [->|_]; [congruence | reflexivity].
Qed.

Lemma count_char_app (c : ascii) (a b : string) :
  count_char c (a ++ b) = (count_char c a + count_char c b)%nat.
Proof.
  induction a as [|c' a IH]; [reflexivity|].
  cbn [append count_char]. rewrite IH. lia.
Qed.

Lemma count_char_forall (p : ascii -> bool) (c : ascii) (s : string) :
  string_forall p s = true -> p c = false -> count_char c s = 0%nat.
Proof.
  intros Hs Hc. induction s as [|c' s IH]; [reflexivity|].
  cbn [string_forall] in Hs. apply andb_true_iff in Hs. destruct Hs as [H1 H2].
  cbn [count_char]. rewrite (IH H2).
  destruct (Ascii.eqb_spec c c') as [->|_]; [congruence | reflexivity].
Qed.

Lemma percent_encode_chars (c : ascii) :
  percent_encode c
  = String "%" (String (hex_digit (N_of_ascii c / 16))
                  (String (hex_digit (N_of_ascii c mod 16)) ""))
  /\ always_safe (hex_digit (N_of_ascii c / 16)) = true
  /\ always_safe (hex_digit (N_of_ascii c mod 16)) = true
  /\ ascii_of_N (16 * unhex (hex_digit (N_of_ascii c / 16))
                 + unhex (hex_digit (N_of_ascii c mod 16))) = c.
Proof.
  destruct c as [[] [] [] [] [] [] [] []]; repeat split; reflexivity.
Qed.

Lemma quote_app (safe a b : string) :
  quote safe (a ++ b) = quote safe a ++ quote safe b.
Proof.
  induction a as [|c a IH]; [reflexivity|].
  cbn [append quote]. rewrite IH.
  destruct (always_safe c || in_string c safe); cbn [append]; reflexivity.
Qed.

Lemma replace_spaces_app (a b : string) :
  replace_spaces (a ++ b) = replace_spaces a ++ replace_spaces b.
Proof.
  induction a as [|c a IH]; [reflexivity|].
  cbn [append replace_spaces]. now rewrite IH.
Qed.

Lemma quote_chars (safe s : string) :
  string_forall
    (fun c => always_safe c || in_string c safe || Ascii.eqb c "%")
    (quote safe s) = true.
Proof.
  induction s as [|c s IH]; [reflexivity|].
  cbn [quote]. rewrite string_forall_app, IH, andb_true_r.
  destruct (always_safe c || in_string c safe) eqn:E.
  - cbn [string_forall]. now rewrite E.
  - destruct (percent_encode_chars c) as (-> & H1 & H2 & _).
    cbn [string_forall]. rewrite H1, H2, Ascii.eqb_refl, orb_true_r.
    reflexivity.
Qed.

Lemma space_to_plus_wire (c : ascii) :
  always_safe c || in_string c ":+= " || Ascii.eqb c "%" = true ->
  wire_char (space_to_plus c) = true.
Proof.
  destruct c as [[] [] [] [] [] [] [] []]; intros H; try reflexivity;
    discriminate H.
Qed.

Lemma replace_spaces_forall (p p' : ascii -> bool) (s : string) :
  (forall c, p c = true -> p' (space_to_plus c) = true) ->
  string_forall p s = true -> string_forall p' (replace_spaces s) = true.
Proof.
  intros Himp. induction s as [|c s IH]; [reflexivity|].
  cbn [string_forall replace_spaces]. rewrite !andb_true_iff.
  intros [Hc Hs]. split; [now apply Himp | now apply IH].
Qed.

Lemma quote_plus_chars (s : string) :
  string_forall wire_char (quote_plus ":+=" s) = true.
Proof.
  unfold quote_plus. destruct (in_string " " s).
  - apply (replace_spaces_forall
             (fun c => always_safe c || in_string c ":+= " || Ascii.eqb c "%")).
    + exact space_to_plus_wire.
    + apply (quote_chars ":+= ").
  - apply (string_forall_impl
             (fun c => always_safe c || in_string c ":+=" || Ascii.eqb c "%")).
    + intros c. unfold wire_char. cbn [in_string].
      rewrite !orb_false_r, <- !orb_assoc. intros H. exact H.
    + apply quote_chars.
Qed.

(** X18: whatever the text, its quoted form is made of letters, digits,
    [_.-~], the safe characters [:+=] and [%] only: no space, [&], [#],
    [?] or [/] is ever left in a key or a value. *)
Theorem quote_plus_wire_chars (s : string) :
  string_forall wire_char (quote_plus ":+=" s) = true.
Proof. exact (quote_plus_chars s). Qed.

Lemma quote_safe_id (safe s : string) :
  string_forall (fun c => always_safe c || in_string c safe) s = true ->
  quote safe s = s.
Proof.
  induction s as [|c s IH]; [reflexivity|].
  cbn [string_forall quote]. rewrite andb_true_iff. intros [-> Hs].
  cbn [append]. now rewrite IH.
Qed.

Lemma always_safe_no_space (s : string) :
  string_forall always_safe s = true -> in_string " " s = false.
Proof. intros H. now apply (in_string_forall always_safe). Qed.

Lemma quote_plus_safe_id (s : string) :
  string_forall always_safe s = true -> quote_plus ":+=" s = s.
Proof.
  intros H. unfold quote_plus. rewrite (always_safe_no_space s H).
  apply quote_safe_id. eapply string_forall_impl; [|exact H].
  intros c ->. reflexivity.
Qed.

Lemma uint_digits_safe (d : Decimal.uint) :
  string_forall always_safe (NilEmpty.string_of_uint d) = true.
Proof. induction d; cbn [NilEmpty.string_of_uint string_forall]; auto. Qed.

Lemma str_int_safe (z : Z) : string_forall always_safe (str_int z) = true.
Proof.
  unfold str_int, NilZero.string_of_int, NilZero.string_of_uint.
  destruct (Z.to_int z) as [d|d].
  - destruct d; try reflexivity; apply (uint_digits_safe _).
  - cbn [string_forall]. destruct d; try reflexivity;
      apply (uint_digits_safe _).
Qed.

Lemma string_app_assoc (a b c : string) : (a ++ b) ++ c = a ++ (b ++ c).
Proof.
  induction a as [|x a IH]; [reflexivity|]. cbn [append]. now rewrite IH.
Qed.

Lemma payload_str_unfold (p : payload) :
  payload_str p
  = "q=" ++ quote_plus ":+=" (q p)
    ++ "&page=" ++ str_int (page p)
    ++ "&per_page=" ++ str_int (per_page p)
    ++ "&type=" ++ quote_plus ":+=" (type p).
Proof.
  unfold payload_str, urlencode. cbn [map fst snd String.concat].
  rewrite !(quote_plus_safe_id (str_int _)) by apply str_int_safe.
  change (quote_plus ":+=" "q") with "q".
  change (quote_plus ":+=" "page") with "page".
  change (quote_plus ":+=" "per_page") with "per_page".
  change (quote_plus ":+=" "type") with "type".
  rewrite ?string_app_assoc. reflexivity.
Qed.

(** X19: the string built for a request is
    [q=<query>&page=<i>&per_page=<size>&type=<type>], the query and the
    type quoted and the two numbers in decimal; whatever the query holds,
    the string has exactly three [&], so exactly these four parameters, and
    no space. *)
Theorem payload_str_shape (p : payload) :
  payload_str p
  = "q=" ++ quote_plus ":+=" (q p)
    ++ "&page=" ++ str_int (page p)
    ++ "&per_page=" ++ str_int (per_page p)
    ++ "&type=" ++ quote_plus ":+=" (type p)
  /\ count_char "&" (payload_str p) = 3%nat
  /\ in_string " " (payload_str p) = false.
Proof.
  split; [apply payload_str_unfold|].
  rewrite payload_str_unfold.
  assert (Hq : forall s, string_forall wire_char (quote_plus ":+=" s) = true)
    by exact quote_plus_chars.
  assert (Hz : forall z, string_forall wire_char (str_int z) = true).
  { intros z. eapply string_forall_impl; [|apply str_int_safe].
    intros c Hc. unfold wire_char. now rewrite Hc. }
  split.
  - rewrite !count_char_app.
    rewrite !(count_char_forall wire_char "&" (quote_plus ":+=" _))
      by (auto; reflexivity).
    rewrite !(count_char_forall wire_char "&" (str_int _))
      by (auto; reflexivity).
    reflexivity.
  - rewrite !in_string_app.
    rewrite !(in_string_forall wire_char " " (quote_plus ":+=" _))
      by (auto; reflexivity).
    rewrite !(in_string_forall wire_char " " (str_int _))
      by (auto; reflexivity).
    reflexivity.
Qed.

(** X20: for a searcher built from two integer criteria the query goes on
    the wire with [:], [=] and the joining [+] untouched and each [>]
    written [%3E]. *)
Theorem wire_query_of_ints (f r : Z) (Hf : f <> 0) (Hr : r <> 0) :
  exists self,
    __init__ (Some f) (Some r) None = inr self
    /\ _search_query self
       = "followers:>=" ++ str_int f ++ "+repos:>=" ++ str_int r
    /\ quote_plus ":+=" (_search_query self)
       = "followers:%3E=" ++ str_int f ++ "+repos:%3E=" ++ str_int r.
Proof.
  assert (Hinit : __init__ (Some f) (Some r) None
                  = inr (mkUserSearcher
                           ("followers:>=" ++ str_int f
                            ++ "+repos:>=" ++ str_int r))).
  { unfold __init__, build_query, append_int, truthy_int.
    cbn [is_none andb].
    apply Z.eqb_neq in Hf, Hr. rewrite Hf, Hr. cbn [negb].
    reflexivity. }
  eexists. split; [exact Hinit|]. split; [reflexivity|].
  cbn [_search_query].
  assert (Hsp : forall z, in_string " " (str_int z) = false)
    by (intros z; apply always_safe_no_space, str_int_safe).
  assert (Hid : forall z, quote ":+=" (str_int z) = str_int z).
  { intros z. apply quote_safe_id.
    eapply string_forall_impl; [|apply str_int_safe].
    intros c ->. reflexivity. }
  assert (Hno : in_string " " ("followers:>=" ++ str_int f
                               ++ "+repos:>=" ++ str_int r) = false)
    by (rewrite !in_string_app, !Hsp; reflexivity).
  unfold quote_plus. rewrite Hno, !quote_app, !Hid. reflexivity.
Qed.

Lemma wire_query_of_ints_witness :
  exists self,
    __init__ (Some 1000) (Some 5) None = inr self
    /\ _search_query self
       = "followers:>=" ++ str_int 1000 ++ "+repos:>=" ++ str_int 5
    /\ quote_plus ":+=" (_search_query self)
       = "followers:%3E=" ++ str_int 1000 ++ "+repos:%3E=" ++ str_int 5.
Proof. apply (wire_query_of_ints 1000 5); lia. Defined.

Lemma percent_encode_no_space (c : ascii) :
  replace_spaces (percent_encode c) = percent_encode c.
Proof. destruct c as [[] [] [] [] [] [] [] []]; reflexivity. Qed.

Lemma safe_with_space (c : ascii) :
  Ascii.eqb " " c = false ->
  always_safe c || in_string c ":+= " = always_safe c || in_string c ":+=".
Proof.
  intros H. cbn [in_string]. rewrite (Ascii.eqb_sym c " "), H.
  now rewrite !orb_false_r.
Qed.

(** [quote_plus] in one piece: quote with the space kept, then turn every
    space into a plus. *)
Lemma quote_plus_always (s : string) :
  quote_plus ":+=" s = replace_spaces (quote ":+= " s).
Proof.
  unfold quote_plus. destruct (in_string " " s) eqn:E; [reflexivity|].
  induction s as [|c s IH]; [reflexivity|].
  cbn [in_string] in E. apply orb_false_iff in E. destruct E as [Hc Hs].
  cbn [quote]. rewrite replace_spaces_app, <- (IH Hs), (safe_with_space c Hc).
  f_equal. destruct (always_safe c || in_string c ":+=").
  - cbn [replace_spaces]. unfold space_to_plus.
    now rewrite (Ascii.eqb_sym c " "), Hc.
  - symmetry. apply percent_encode_no_space.
Qed.

(** X21: a space and a plus sign are written the same way, so two values
    that differ only there give the same request string. *)
Theorem quote_plus_space_is_plus (s1 s2 : string) :
  quote_plus ":+=" (s1 ++ " " ++ s2) = quote_plus ":+=" (s1 ++ "+" ++ s2).
Proof.
  rewrite !quote_plus_always, !quote_app, !replace_spaces_app. reflexivity.
Qed.

Lemma unquote_quote (s : string) : unquote (quote ":+=" s) = s.
Proof.
  induction s as [|c s IH]; [reflexivity|].
  cbn [quote]. destruct (always_safe c || in_string c ":+=") eqn:E.
  - cbn [append unquote].
    destruct (Ascii.eqb_spec c "%") as [->|_]; [discriminate E|].
    now rewrite IH.
  - destruct (percent_encode_chars c) as (-> & _ & _ & Hc).
    cbn [append unquote]. rewrite Ascii.eqb_refl, Hc, IH. reflexivity.
Qed.

(** X22: two values without a space that are written the same way are the
    same value: quoting loses nothing but the difference between a space
    and a plus. *)
Theorem quote_plus_injective (s1 s2 : string)
    (H1 : in_string " " s1 = false) (H2 : in_string " " s2 = false)
    (Heq : quote_plus ":+=" s1 = quote_plus ":+=" s2) :
  s1 = s2.
Proof.
  unfold quote_plus in Heq. rewrite H1, H2 in Heq.
  rewrite <- (unquote_quote s1), <- (unquote_quote s2). now rewrite Heq.
Qed.

Lemma quote_plus_injective_witness : "language:c++" = "language:c++".
Proof.
  apply (quote_plus_injective "language:c++" "language:c++"); reflexivity.
Defined.

(** * The script *)

(** X23: run as a script, the program searches with the query
    [followers:>=1000]: whatever the transport does, each request it makes
    is [q=followers:%3E=1000&page=<i>&per_page=100&type=user] for a page
    [i] from 1 to 10, and when the search returns it has made ten. *)
Theorem main_requests (W : Type) (fetch : payload -> W -> result body * W)
    (w : W) (r : result DataFrame) (st : state W)
    (Hrun : main fetch w = (r, st)) :
  (forall ex, In ex (log st) ->
     1 <= page (sent ex) <= 10
     /\ payload_str (sent ex)
        = "q=followers:%3E=1000&page=" ++ str_int (page (sent ex))
          ++ "&per_page=100&type=user")
  /\ (forall df, r = inr df -> List.length (log st) = 10%nat).
Proof.
  unfold main in Hrun.
  change (__init__ (Some 1000) None None)
    with (@inr exn t (mkUserSearcher "followers:>=1000")) in Hrun.
  cbv iota beta in Hrun.
  apply search_requests_prefix in Hrun.
  change (_get_pages 1000 max_results) with 10 in Hrun.
  destruct Hrun as (k & Hk & Hsent & Hok & _).
  split.
  - intros ex Hex. apply (in_map sent) in Hex. rewrite Hsent in Hex.
    apply in_map_iff in Hex. destruct Hex as (i & <- & Hi).
    apply range_In in Hi. cbn [make_payload page _search_query].
    split; [lia|]. rewrite payload_str_unfold.
    cbn [make_payload q page per_page type _search_query].
    change (quote_plus ":+=" "followers:>=1000") with "followers:%3E=1000".
    change (quote_plus ":+=" "user") with "user".
    change (str_int (Z.min 1000 max_results)) with "100".
    rewrite ?string_app_assoc. reflexivity.
  - intros df Hdf. specialize (Hok df Hdf).
    rewrite <- (length_map sent), Hsent, length_map, range_length. lia.
Qed.

Lemma main_requests_witness :
  let run := @main unit (paged (sample_db 30)) tt in
  (forall ex, In ex (log (snd run)) ->
     1 <= page (sent ex) <= 10
     /\ payload_str (sent ex)
        = "q=followers:%3E=1000&page=" ++ str_int (page (sent ex))
          ++ "&per_page=100&type=user")
  /\ (forall df, fst run = inr df -> List.length (log (snd run)) = 10%nat).
Proof.
  intros run.
  apply (main_requests unit (paged (sample_db 30)) tt (fst run) (snd run)).
  apply surjective_pairing.
Defined.

(** * The pages of a search, without reference to the loop indices *)








(** * The fields of a result row *)





(** * Remapping columns in the context manager *)

Lemma json_normalize_columns (data : list record) (k : string) :
  In k (columns (json_normalize data)) <-> page_has_key k data.
Proof.
  unfold page_has_key. destruct data as [|r0 data0].
  - cbn. split; [tauto | intros (r & [] & _)].
  - change (json_normalize (r0 :: data0))
      with (mkDataFrame (labels_of (r0 :: data0)) (r0 :: data0)).
    cbn [columns]. apply labels_of_In.
Qed.

Lemma remap_all_ok (pairs : list (string * string)) :
  forall df,
  Forall (fun p => In (snd p) (columns df)) pairs ->
  exists df',
    remap_all pairs df = (df', None)
    /\ List.length (rows df') = List.length (rows df)
    /\ forall c, In c (columns df')
                 <-> In c (columns df) \/ In c (map fst pairs).
Proof.
  induction pairs as [|[dst src] pairs IH]; intros df Hsrc.
  - exists df. cbn. repeat split; tauto.
  - inversion Hsrc as [|? ? Hhead Hrest]; subst. cbn [snd] in Hhead.
    cbn [remap_all]. unfold getitem at 1.
    assert (mem src (columns df) = true) as -> by (now apply mem_In).
    destruct (IH (setitem dst (map (row_get src) (rows df)) df))
      as (df' & Hrun & Hlen & Hcols).
    { eapply Forall_impl; [|exact Hrest].
      intros p Hp. apply setitem_columns. now left. }
    exists df'. split; [exact Hrun|]. split.
    + rewrite Hlen. cbn [setitem rows]. apply assign_length.
    + intros c. rewrite Hcols, setitem_columns. cbn [map fst In].
      split; [intros [[H|H]|H] | intros [H|[H|H]]]; auto.
Qed.

(** X15: a [with] block that remaps columns, [df[dst] = df[src]] with every
    [src] a field of some input record, does not raise and leaves a frame
    with one row per input record whose columns are exactly the [dst]
    labels that are not fields of the input: every original column is
    gone, no row keeps an original field, and a [dst] that takes the name
    of an original column is gone with them. *)
Theorem with_block_remaps (data : list record)
    (pairs : list (string * string))
    (Hsrc : Forall (fun p => page_has_key (snd p) data) pairs) :
  exists df,
    DataFrameFromDict.with_block data (remap_all pairs) = inr df
    /\ List.length (rows df) = List.length data
    /\ (forall c, In c (columns df)
                  <-> In c (map fst pairs) /\ ~ page_has_key c data)
    /\ (forall r k, In r (rows df) -> In k (map fst r) ->
                    ~ page_has_key k data).
Proof.
  unfold DataFrameFromDict.with_block, DataFrameFromDict.__exit__,
    DataFrameFromDict.__enter__, DataFrameFromDict.__init__.
  cbn [DataFrameFromDict.self_df DataFrameFromDict.self_columns].
  set (df0 := json_normalize data).
  destruct (remap_all_ok pairs df0) as (df' & -> & Hlen & Hcols).
  { eapply Forall_impl; [|exact Hsrc].
    intros p Hp. now apply json_normalize_columns. }
  rewrite drop_own_columns by (intros c Hc; apply Hcols; now left).
  eexists. split; [reflexivity|]. cbn [bind_result columns rows].
  split; [|split].
  - rewrite length_map.
    transitivity (List.length (rows df0));
      [exact Hlen | apply json_normalize_length].
  - intros c. rewrite filter_In, Hcols, negb_true_iff.
    rewrite <- (json_normalize_columns data c). fold df0. split.
    + intros [[H|H] Hm].
      * apply mem_In in H. congruence.
      * split; [exact H|]. intros Hc. apply mem_In in Hc. congruence.
    + intros [H Hn]. split; [now right|].
      destruct (mem c (columns df0)) eqn:E; [|reflexivity].
      apply mem_In in E. contradiction.
  - intros r k Hr Hk Hc. apply json_normalize_columns in Hc. fold df0 in Hc.
    apply in_map_iff in Hr. destruct Hr as (r0 & <- & _).
    apply in_map_iff in Hk. destruct Hk as (kv & <- & Hkv).
    apply filter_In in Hkv. destruct Hkv as [_ Hm].
    apply negb_true_iff in Hm. apply mem_In in Hc. congruence.
Qed.

Lemma with_block_remaps_witness :
  let data := sample_db 2 in
  let pairs := [("username", "login"); ("login", "html_url")] in
  exists df,
    DataFrameFromDict.with_block data (remap_all pairs) = inr df
    /\ List.length (rows df) = List.length data
    /\ (forall c, In c (columns df)
                  <-> In c (map fst pairs) /\ ~ page_has_key c data)
    /\ (forall r k, In r (rows df) -> In k (map fst r) ->
                    ~ page_has_key k data).
Proof.
  intros data pairs.
  apply (with_block_remaps data pairs).
  repeat constructor; exists (sample_user 0); (split; [left; reflexivity|]);
    cbn; auto.
Defined.

(** The body [search] runs is such a remapping. *)
Lemma remap_body_remap_all (df : DataFrame) :
  remap_body df
  = remap_all [("username", "login"); ("github_url", "html_url")] df.
Proof.
  unfold remap_body. cbn [remap_all].
  destruct (getitem "login" df); [reflexivity|].
  destruct (getitem "html_url" _); reflexivity.
Qed.
